(** * rested-mongo: the storage handler of [mongo.go], embedded in Rocq

    The development follows the Go source:
    - the values that travel through [interface{}] and the two item
      representations ([resource.Item] and [mongoItem]) with the translators
      [newMongoItem] and [newItem];
    - the round trips to the collection as calls of a small free monad, so
      that the calls an operation issues and their arguments are part of
      what is proved;
    - the operations [Insert], [Update], [Delete], [Clear], [Find], [Count];
    - an in-memory collection used to run the operations on concrete data. *)

From Stdlib Require Import ZArith Strings.String Strings.Ascii Strings.Byte List Lia.
From stdpp Require Import base tactics option list gmap strings pretty.

Local Open Scope Z_scope.
Local Open Scope string_scope.

(** ** Values carried by [interface{}] *)

Module Value.

(** The dynamic values an identifier or a payload field holds here: Go's
    [nil], booleans, integers, strings and the driver's 12-byte
    [primitive.ObjectID]. *)
Inductive value : Type :=
| VNil
| VBool (b : bool)
| VInt (n : Z)
| VStr (s : string)
| VObjectID (raw : list byte).

#[global] Instance byte_eq_dec : EqDecision byte := Byte.byte_eq_dec.
#[global] Instance value_eq_dec : EqDecision value.
Proof. solve_decision. Defined.

(** One hexadecimal digit, lower case, as [encoding/hex] writes it. *)
Definition hex_digit (n : N) : ascii :=
  match n with
  | 0 => "0" | 1 => "1" | 2 => "2" | 3 => "3" | 4 => "4" | 5 => "5"
  | 6 => "6" | 7 => "7" | 8 => "8" | 9 => "9" | 10 => "a" | 11 => "b"
  | 12 => "c" | 13 => "d" | 14 => "e" | _ => "f"
  end%N%char.

(** [ObjectID.Hex]: two digits per byte, high nibble first. *)
Fixpoint Hex (raw : list byte) : string :=
  match raw with
  | [] => EmptyString
  | b :: rest =>
      let n := Byte.to_N b in
      String (hex_digit (N.shiftr n 4))
        (String (hex_digit (N.land n 15)) (Hex rest))
  end.

Definition dquote : ascii := ascii_of_nat 34.

(** [fmt.Sprint] on one operand. *)
Definition Sprint (v : value) : string :=
  match v with
  | VNil => "<nil>"
  | VBool true => "true"
  | VBool false => "false"
  | VInt n => pretty n
  | VStr s => s
  | VObjectID raw =>
      "ObjectID(" ++ String dquote (Hex raw) ++ String dquote ")"
  end.

End Value.
Export Value.

(** ** Machine integers *)

Module GoInt.

(** Go's [int] on the 64-bit targets the driver supports. *)
Definition int_min : Z := - 2 ^ 63.
Definition int_max : Z := 2 ^ 63 - 1.

Definition in_int (z : Z) : Prop := int_min <= z <= int_max.

(** Two's complement wrap-around of a mathematical integer. *)
Definition wrap (z : Z) : Z := (z + 2 ^ 63) mod 2 ^ 64 - 2 ^ 63.

(** [a + b] on [int]. *)
Definition int_add (a b : Z) : Z := wrap (a + b).

(** [int(x)] for an [int64] operand. *)
Definition int_of_int64 (x : Z) : Z := wrap x.

(** [len(xs)] as an [int]. *)
Definition len {A} (xs : list A) : Z := Z.of_nat (length xs).

End GoInt.
Export GoInt.

(** ** Items and their stored form *)

(** A Go map of type [map[string]interface{}]; [None] is the nil map. *)
Abbreviation payload := (option (gmap string value)).

(** [resource.Item], with the fields the handler reads. *)
Record Item : Type := mkItem {
  ID : value;
  ETag : string;
  Updated : Z;
  Payload : payload;
}.

(** [mongoItem]: the bson representation of an item. *)
Record mongoItem : Type := mkMongoItem {
  mID : value;
  mETag : string;
  mUpdated : Z;
  mPayload : payload;
}.

#[global] Instance Item_eq_dec : EqDecision Item.
Proof. solve_decision. Defined.
#[global] Instance mongoItem_eq_dec : EqDecision mongoItem.
Proof. solve_decision. Defined.

(** What [for k, v := range m] visits: nothing for the nil map. *)
Definition entries (m : payload) : gmap string value := default ∅ m.

(** [newMongoItem] converts a [resource.Item] into a [mongoItem]: every
    payload entry but ["id"] is copied into a fresh map. *)
Definition newMongoItem (i : Item) : mongoItem :=
  let p := filter (fun kv : string * value => kv.1 ≠ "id") (entries (Payload i)) in
  {| mID := ID i; mETag := ETag i; mUpdated := Updated i; mPayload := Some p |}.

(** The text of an identifier inside a synthetic tag: the hexadecimal form
    for an [ObjectID], [fmt.Sprint] for anything else. *)
Definition id_text (id : value) : string :=
  match id with
  | VObjectID raw => Hex raw
  | other => Sprint other
  end.

(** [newItem] converts a [mongoItem] back into a [resource.Item]: a nil
    payload becomes an empty map, the identifier is written under ["id"],
    and an empty tag is replaced by ["p-"] followed by the identifier. *)
Definition newItem (i : mongoItem) : Item :=
  let p := match mPayload i with
           | None => ∅
           | Some m => m
           end in
  let p := <["id" := mID i]> p in
  let item := {| ID := mID i; ETag := mETag i; Updated := mUpdated i;
                 Payload := Some p |} in
  if decide (ETag item = EmptyString)
  then {| ID := ID item; ETag := "p-" ++ id_text (mID i);
          Updated := Updated item; Payload := Payload item |}
  else item.

(** ** Errors and contexts *)

(** The error values the handler compares against or hands back. *)
Inductive error : Type :=
| ErrNoDocuments                (* mongo.ErrNoDocuments *)
| ErrNotFound                   (* resource.ErrNotFound *)
| ErrConflict                   (* resource.ErrConflict *)
| Canceled                      (* context.Canceled *)
| DeadlineExceeded              (* context.DeadlineExceeded *)
| WriteError (code : Z)         (* a server write error with its code *)
| ServerError (code : Z) (msg : string)
                                (* a server error, of a command or of a
                                   write, with its code and message *)
| OtherError (msg : string).    (* any other error value *)

#[global] Instance error_eq_dec : EqDecision error.
Proof. solve_decision. Defined.

(** [mongo.IsDuplicateKeyError]: a server error with one of the
    duplicate key codes, or with code 16460 and the marker of a duplicate
    key in its message; no other error. A [WriteError] is a write error
    whose message holds no such marker. *)
Definition IsDuplicateKeyError (err : option error) : bool :=
  match err with
  | Some (WriteError code) =>
      bool_decide (code = 11000 \/ code = 11001 \/ code = 12582)
  | Some (ServerError code msg) =>
      bool_decide (code = 11000 \/ code = 11001 \/ code = 12582)
      || (bool_decide (code = 16460)
          && bool_decide (is_Some (String.index 0 " E11000 " msg)))
  | _ => false
  end.

(** A [context.Context] as one call sees it: [ctx.Err()] is nil while the
    context is live and, once it is done, keeps returning the same
    non-nil error. *)
Inductive Context : Type := Live | Cancelled | Expired.

#[global] Instance Context_eq_dec : EqDecision Context.
Proof. solve_decision. Defined.

Definition Err (ctx : Context) : option error :=
  match ctx with
  | Live => None
  | Cancelled => Some Canceled
  | Expired => Some DeadlineExceeded
  end.

(** The two errors a done context reports. *)
Definition cancellation (e : error) : Prop := e = Canceled \/ e = DeadlineExceeded.

(** ** Native queries *)

(** The right-hand sides the handler writes into a [bson.M] filter: a plain
    value (equality), [{"$exists": b}] and [{"$in": ids}]. *)
Inductive cond : Type :=
| CEq (v : value)
| CExists (b : bool)
| CIn (vs : list value).

#[global] Instance cond_eq_dec : EqDecision cond.
Proof. solve_decision. Defined.

(** A [bson.M] used as a filter. *)
Abbreviation bsonM := (gmap string cond).

(** The update document [bson.M{"$set": mItem}]. *)
Inductive update : Type := SetDoc (doc : mongoItem).

(** [options.FindOptions], with the settings the handler touches. *)
Record FindOptions : Type := mkFindOptions {
  Sort : list (string * Z);
  Skip : option Z;
  FLimit : option Z;
  Projection : option (gmap string Z);
}.

Definition SetProjection (o : FindOptions) (p : gmap string Z) : FindOptions :=
  {| Sort := Sort o; Skip := Skip o; FLimit := FLimit o; Projection := Some p |}.

(** ** Abstract queries *)

(** [query.Window]. *)
Module Window.
Record t : Type := mk { Offset : Z; Limit : Z }.
End Window.

(** One conjunct of a [query.Predicate]. *)
Inductive Expression : Type :=
| Equal (field : string) (v : value)
| InSet (field : string) (vs : list value)
| Exist (field : string)
| NotExist (field : string)
| Unsupported (what : string).

(** [query.SortField]. *)
Record SortField : Type := mkSortField { Name : string; Reversed : bool }.

(** [query.Query], with the fields the handler and its helpers read;
    [QWindow] is the [Window] pointer, [None] when nil. *)
Record Query : Type := mkQuery {
  Predicate : list Expression;
  QSort : list SortField;
  QWindow : option Window.t;
}.

(** [resource.ItemList]. *)
Module ItemList.
Record t : Type := mk { Total : Z; Limit : Z; Items : list Item }.
End ItemList.

(** The helpers of this package that [mongo.go] calls and that live in
    another file: the query translator. They are pure functions of the
    query; the operations below are stated for any such functions. *)
Class Translator : Type := {
  getQuery : Query -> bsonM + error;
  getSort : Query -> FindOptions;
  applyWindow : FindOptions -> option Window.t -> FindOptions;
}.

(** ** Round trips to the collection *)

(** A [*mongo.Cursor] handed out by the driver. *)
Definition cursor : Type := nat.

(** The calls the handler makes on its environment: the handler function
    itself ([m(ctx)], which resolves the collection), the driver's
    collection and cursor methods, and [selectIDs]. *)
Inductive call : Type :=
| Resolve (ctx : Context)
| InsertMany (ctx : Context) (documents : list mongoItem)
| UpdateByID (ctx : Context) (id : value) (upd : update)
| DeleteOne (ctx : Context) (filter : bsonM)
| FindOne (ctx : Context) (filter : bsonM)
| Find (ctx : Context) (filter : bsonM) (opts : FindOptions)
| CursorAll (ctx : Context) (cur : cursor)
| CursorClose (ctx : Context) (cur : cursor)
| SelectIDs (ctx : Context) (cur : cursor)
| DeleteMany (ctx : Context) (filter : bsonM)
| CountDocuments (ctx : Context) (filter : bsonM).

(** What each call gives back, as the Go signatures have it: an error is
    [None] for nil; a pointer result is [None] for nil.
    - [FindOne] stands for [FindOne] followed by [Decode]: the error of
      the decoding;
    - [DeleteMany] gives the [DeletedCount] of a non-nil [*DeleteResult];
    - [SelectIDs] is modelled from the spec, see [selectIDs]. *)
Definition resp (c : call) : Type :=
  match c with
  | Resolve _ => option error
  | InsertMany _ _ => option error
  | UpdateByID _ _ _ => option error
  | DeleteOne _ _ => option error
  | FindOne _ _ => option error
  | Find _ _ _ => (option cursor * option error)%type
  | CursorAll _ _ => (list mongoItem * option error)%type
  | CursorClose _ _ => option error
  | SelectIDs _ _ => (list value * option error)%type
  | DeleteMany _ _ => (option Z * option error)%type
  | CountDocuments _ _ => (Z * option error)%type
  end.

(** Programs over these calls. [Crash] is a run-time panic. *)
Inductive prog (R : Type) : Type :=
| Ret (r : R)
| Crash
| Do (c : call) (k : resp c -> prog R).

Arguments Ret {R} r.
Arguments Crash {R}.
Arguments Do {R} c k.

Fixpoint bind {A B} (p : prog A) (f : A -> prog B) : prog B :=
  match p with
  | Ret a => f a
  | Crash => Crash
  | Do c k => Do c (fun r => bind (k r) f)
  end.

(** One call, returning its answer. *)
Definition ask (c : call) : prog (resp c) := Do c Ret.

#[global] Instance prog_ret : MRet prog := @Ret.
#[global] Instance prog_bind : MBind prog := fun A B f p => bind p f.

(** ** The environment *)

(** An environment answers every call from its state. *)
Record driver (S : Type) : Type := mkDriver {
  respond : forall c : call, S -> resp c * S;
}.
Arguments respond {S} d c s.

(** How a call of the handler ends. *)
Inductive outcome (R : Type) : Type :=
| Returned (r : R)
| Panicked.
Arguments Returned {R} r.
Arguments Panicked {R}.

(** One round trip: the call and its answer. *)
Record entry : Type := mkEntry { asked : call; answered : resp asked }.

(** Running a program against an environment: the outcome, the final state
    and the round trips made, in order. *)
Fixpoint run {S R} (d : driver S) (p : prog R) (s : S)
  : outcome R * S * list entry :=
  match p with
  | Ret r => (Returned r, s, [])
  | Crash => (Panicked, s, [])
  | Do c k =>
      let '(a, s1) := respond d c s in
      let '(o, s2, log) := run d (k a) s1 in
      (o, s2, mkEntry c a :: log)
  end.

Definition result {S R} (d : driver S) (p : prog R) (s : S) : outcome R :=
  (run d p s).1.1.
Definition final {S R} (d : driver S) (p : prog R) (s : S) : S :=
  (run d p s).1.2.
Definition trips {S R} (d : driver S) (p : prog R) (s : S) : list entry :=
  (run d p s).2.
Definition calls {S R} (d : driver S) (p : prog R) (s : S) : list call :=
  asked <$> trips d p s.

(** The filter and the answer of a round trip that is a [DeleteMany]. *)
Definition delete_many_trip (e : entry)
  : option (bsonM * (option Z * option error)) :=
  match e with
  | mkEntry c r =>
      match c return resp c -> option (bsonM * (option Z * option error)) with
      | DeleteMany _ f => fun r => Some (f, r)
      | _ => fun _ => None
      end r
  end.

(** The last round trip of a run, when it is a [DeleteMany]. *)
Definition ended_in_delete {S R} (d : driver S) (p : prog R) (s : S)
  : option (bsonM * (option Z * option error)) :=
  last (trips d p s) ≫= delete_many_trip.

(** ** The handler *)

(** [bson.M{"_id": id}]. *)
Definition by_id (id : value) : bsonM := {[ "_id" := CEq id ]}.

(** The selector [s] that [Update] and [Delete] build: the identifier,
    and on the version field either absence, for a tag in the
    [p-[id]] format, or equality with the tag. *)
Definition selector (id : value) (etag : string) : bsonM :=
  let s := by_id id in
  if String.prefix "p-" etag
  then <["_etag" := CExists false]> s
  else <["_etag" := CEq (VStr etag)]> s.

(** Modelled from the spec: [selectIDs] is not in [mongo.go]. It drains
    the cursor of the identifier-only read and collects the identifiers
    into a finite sequence, or fails. *)
Definition selectIDs (ctx : Context) (request : cursor)
  : prog (list value * option error) :=
  ask (SelectIDs ctx request).

Module Handler.
Section Operations.

Context `{!Translator}.

(** [Insert] inserts new items in the collection. *)
Definition Insert (ctx : Context) (items : list Item) : prog (option error) :=
  let mItems := newMongoItem <$> items in
  err ← ask (Resolve ctx);
  match err with
  | Some e => Ret (Some e)
  | None =>
      err ← ask (InsertMany ctx mItems);
      let err := if IsDuplicateKeyError err then Some ErrConflict else err in
      match Err ctx with
      | Some e => Ret (Err ctx)
      | None => Ret err
      end
  end.

(** [Update] replaces an item by a new one in the collection. *)
Definition Update (ctx : Context) (item original : Item) : prog (option error) :=
  let mItem := newMongoItem item in
  err ← ask (Resolve ctx);
  match err with
  | Some e => Ret (Some e)
  | None =>
      let s := selector (ID original) (ETag original) in
      err ← ask (UpdateByID ctx (ID original) (SetDoc mItem));
      if decide (err = Some ErrNoDocuments) then
        err ← ask (FindOne ctx (by_id (ID original)));
        if decide (err = Some ErrNoDocuments) then Ret (Some ErrNotFound)
        else if decide (Err ctx <> None) then Ret (Err ctx)
        else Ret (Some ErrConflict)
      else Ret err
  end.

(** [Delete] deletes an item from the collection. *)
Definition Delete (ctx : Context) (item : Item) : prog (option error) :=
  err ← ask (Resolve ctx);
  match err with
  | Some e => Ret (Some e)
  | None =>
      let s := selector (ID item) (ETag item) in
      err ← ask (DeleteOne ctx s);
      if decide (err = Some ErrNoDocuments) then
        err ← ask (FindOne ctx (by_id (ID item)));
        if decide (err = Some ErrNoDocuments) then Ret (Some ErrNotFound)
        else if decide (Err ctx <> None) then Ret (Err ctx)
        else Ret (Some ErrConflict)
      else Ret err
  end.

(** The end of [Clear], from the answer of [DeleteMany] on: a nil error
    is replaced by [ctx.Err()], and the count is that of the result
    when there is one. *)
Definition clear_result (ctx : Context) (r : option Z * option error)
  : Z * option error :=
  let '(info, err) := r in
  let err := match err with
             | None => Err ctx
             | Some e => Some e
             end in
  match info with
  | None => (0, err)
  | Some deleted => (int_of_int64 deleted, err)
  end.

(** [Clear] clears all items matching the query from the collection.
    With a window, a first read gives the identifiers of the items to
    delete, sorted and sliced, and the delete is by these identifiers. *)
Definition Clear (ctx : Context) (q : Query) : prog (Z * option error) :=
  match getQuery q with
  | inr e => Ret (0, Some e)
  | inl qry =>
      err ← ask (Resolve ctx);
      match err with
      | Some e => Ret (0, Some e)
      | None =>
          let delete_many (qry : bsonM) :=
            r ← ask (DeleteMany ctx qry);
            Ret (clear_result ctx r) in
          match QWindow q with
          | None => delete_many qry
          | Some _ =>
              let options := getSort q in
              let options := applyWindow options (QWindow q) in
              let options := SetProjection options {[ "_id" := 1 ]} in
              '(request, err) ← ask (Find ctx qry options);
              match err with
              | Some e => Ret (0, Some e)
              | None =>
                  match request with
                  | None => Crash
                  | Some request =>
                      '(ids, err) ← selectIDs ctx request;
                      match err with
                      | None => delete_many {[ "_id" := CIn ids ]}
                      | Some e => Ret (0, Some e)
                      end
                  end
              end
          end
      end
  end.

(** [Count] counts the items matching the lookup filter. *)
Definition Count (ctx : Context) (query : Query) : prog (Z * option error) :=
  match getQuery query with
  | inr e => Ret (-1, Some e)
  | inl q =>
      err ← ask (Resolve ctx);
      match err with
      | Some e => Ret (-1, Some e)
      | None =>
          '(cnt, err) ← ask (CountDocuments ctx q);
          Ret (int_of_int64 cnt, err)
      end
  end.

(** The total [Find] deduces from a page of [n] items read under
    [limit]: known when no limit was set or the page is short, except
    behind a positive offset that returned nothing. *)
Definition deduce_total (w : option Window.t) (limit n : Z) : Z :=
  if bool_decide (limit < 0 \/ n < limit) then
    match w with
    | Some w =>
        if bool_decide (Window.Offset w > 0) then
          if bool_decide (n > 0) then int_add (Window.Offset w) n else -1
        else n
    | None => n
    end
  else -1.

(** [Find] finds the items of the collection matching the query. A
    window of limit 0 is answered by [Count] alone; otherwise the read
    is made, its items are translated, and the total is deduced. A nil
    cursor is dereferenced by [mq.All]. *)
Definition Find (ctx : Context) (q : Query)
  : prog (option ItemList.t * option error) :=
  let read :=
    match getQuery q with
    | inr e => Ret (None, Some e)
    | inl qry =>
        let srt := getSort q in
        let srt := applyWindow srt (QWindow q) in
        err ← ask (Resolve ctx);
        match err with
        | Some e => Ret (None, Some e)
        | None =>
            '(mq, err) ← ask (Find ctx qry srt);
            let limit := match QWindow q with
                         | Some w => Window.Limit w
                         | None => -1
                         end in
            match mq with
            | None => Crash
            | Some mq =>
                '(items, _) ← ask (CursorAll ctx mq);
                let list_items := newItem <$> items in
                cerr ← ask (CursorClose ctx mq);
                match cerr with
                | Some e => Ret (None, Some e)
                | None =>
                    let total :=
                      deduce_total (QWindow q) limit (len list_items) in
                    Ret (Some (ItemList.mk total limit list_items), err)
                end
            end
        end
    end in
  match QWindow q with
  | Some w =>
      if decide (Window.Limit w = 0) then
        '(n, err) ← Count ctx q;
        match err with
        | Some e => Ret (None, Some e)
        | None => Ret (Some (ItemList.mk n (Window.Limit w) []), err)
        end
      else read
  | None => read
  end.

End Operations.
End Handler.

(** ** An in-memory collection *)

(** The driver and the server are outside this package. The properties
    of the handler are stated for every environment; this collection is
    one environment, on which the operations run on concrete documents:
    a list of documents in insertion order, filtered, sorted, skipped and
    limited as the store does. *)
Module Mem.

(** A stored document: the [_id], [_etag] and [_updated] fields and the
    payload fields inlined beside them. The [_etag] field can be absent. *)
Record document : Type := mkDoc {
  d_id : value;
  d_etag : option string;
  d_updated : Z;
  d_fields : gmap string value;
}.

#[global] Instance document_eq_dec : EqDecision document.
Proof. solve_decision. Defined.

(** The collection, the result sets of the cursors handed out so far,
    and the failure, if any, that every round trip currently meets. *)
Record store : Type := mkStore {
  docs : list document;
  cursors : list (list document);
  fault : option error;
}.

Definition field (d : document) (k : string) : option value :=
  if decide (k = "_id") then Some (d_id d)
  else if decide (k = "_etag") then VStr <$> d_etag d
  else if decide (k = "_updated") then Some (VInt (d_updated d))
  else d_fields d !! k.

Definition holds (c : cond) (o : option value) : bool :=
  match c with
  | CEq v => bool_decide (o = Some v)
  | CExists b => Bool.eqb (bool_decide (is_Some o)) b
  | CIn vs =>
      match o with
      | Some v => bool_decide (v ∈ vs)
      | None => false
      end
  end.

(** A document matches a filter when every condition holds. *)
Definition matches (f : bsonM) (d : document) : bool :=
  bool_decide (map_Forall (fun k c => holds c (field d k) = true) f).

(** The document a [mongoItem] is stored as. *)
Definition encode (m : mongoItem) : document :=
  {| d_id := mID m; d_etag := Some (mETag m); d_updated := mUpdated m;
     d_fields := entries (mPayload m) |}.

(** The [mongoItem] a document decodes into: an absent [_etag] gives the
    empty string, and no inlined field at all gives a nil payload. *)
Definition decode (d : document) : mongoItem :=
  {| mID := d_id d; mETag := default EmptyString (d_etag d);
     mUpdated := d_updated d;
     mPayload := if decide (d_fields d = ∅) then None else Some (d_fields d) |}.

(** [$set]: the fields of the new document are written over the old one,
    whose other fields stay. *)
Definition set_doc (m : mongoItem) (d : document) : document :=
  {| d_id := mID m; d_etag := Some (mETag m); d_updated := mUpdated m;
     d_fields := entries (mPayload m) ∪ d_fields d |}.

(** Ordering of values for sorting: by kind, then within the kind. *)
Definition rank (o : option value) : Z :=
  match o with
  | None => 0
  | Some VNil => 1
  | Some (VInt _) => 2
  | Some (VStr _) => 3
  | Some (VObjectID _) => 4
  | Some (VBool _) => 5
  end.

Fixpoint bytes_cmp (a b : list byte) : comparison :=
  match a, b with
  | [], [] => Datatypes.Eq
  | [], _ :: _ => Lt
  | _ :: _, [] => Gt
  | x :: a, y :: b =>
      match N.compare (Byte.to_N x) (Byte.to_N y) with
      | Datatypes.Eq => bytes_cmp a b
      | other => other
      end
  end.

Definition value_cmp (a b : option value) : comparison :=
  match a, b with
  | Some (VInt x), Some (VInt y) => Z.compare x y
  | Some (VStr x), Some (VStr y) => String.compare x y
  | Some (VObjectID x), Some (VObjectID y) => bytes_cmp x y
  | Some (VBool x), Some (VBool y) => Bool.compare x y
  | _, _ => Z.compare (rank a) (rank b)
  end.

(** Comparison of two documents under a sort specification. *)
Fixpoint doc_cmp (keys : list (string * Z)) (a b : document) : comparison :=
  match keys with
  | [] => Datatypes.Eq
  | (k, dir) :: keys =>
      match value_cmp (field a k) (field b k) with
      | Datatypes.Eq => doc_cmp keys a b
      | other => if bool_decide (dir < 0) then CompOpp other else other
      end
  end.

Fixpoint insert_sorted (keys : list (string * Z)) (d : document)
    (l : list document) : list document :=
  match l with
  | [] => [d]
  | x :: rest =>
      match doc_cmp keys d x with
      | Lt => d :: l
      | _ => x :: insert_sorted keys d rest
      end
  end.

(** An insertion sort; among documents that compare equal, one that
    came later in the list comes out first. *)
Definition sort_docs (keys : list (string * Z)) (l : list document)
  : list document :=
  foldr (insert_sorted keys) [] l.

(** Skip and limit; a limit of 0 means no limit. *)
Definition page (o : FindOptions) (l : list document) : list document :=
  let l := match Skip o with
           | Some n => drop (Z.to_nat n) l
           | None => l
           end in
  match FLimit o with
  | Some n => if decide (n = 0) then l else take (Z.to_nat (Z.abs n)) l
  | None => l
  end.

(** Projection: only the listed fields, and always the identifier. *)
Definition project (p : option (gmap string Z)) (d : document) : document :=
  match p with
  | None => d
  | Some p =>
      {| d_id := d_id d;
         d_etag := if decide (is_Some (p !! "_etag")) then d_etag d else None;
         d_updated := if decide (is_Some (p !! "_updated")) then d_updated d else 0;
         d_fields := filter (fun kv : string * value => is_Some (p !! kv.1))
                       (d_fields d) |}
  end.

(** What a read with filter [f] and options [o] returns. *)
Definition select (f : bsonM) (o : FindOptions) (l : list document)
  : list document :=
  project (Projection o) <$> page o (sort_docs (Sort o) (filter (fun d => matches f d = true) l)).

Definition has_id (id : value) (l : list document) : bool :=
  bool_decide (id ∈ d_id <$> l).

(** Ordered insertion: stops at the first identifier already present. *)
Fixpoint insert_many (ms : list mongoItem) (l : list document)
  : option error * list document :=
  match ms with
  | [] => (None, l)
  | m :: ms =>
      if has_id (mID m) l then (Some (WriteError 11000), l)
      else insert_many ms (l ++ [encode m])
  end.

(** Update of the document with the given identifier. *)
Fixpoint update_by_id (id : value) (m : mongoItem) (l : list document)
  : option (list document) :=
  match l with
  | [] => None
  | d :: rest =>
      if decide (d_id d = id) then Some (set_doc m d :: rest)
      else cons d <$> update_by_id id m rest
  end.

(** Removal of the first document matching the filter. *)
Fixpoint delete_one (f : bsonM) (l : list document) : option (list document) :=
  match l with
  | [] => None
  | d :: rest =>
      if matches f d then Some rest else cons d <$> delete_one f rest
  end.

Definition count (f : bsonM) (l : list document) : Z :=
  len (filter (fun d => matches f d = true) l).

Definition remaining (f : bsonM) (l : list document) : list document :=
  filter (fun d => matches f d <> true) l.

Definition with_docs (s : store) (l : list document) : store :=
  {| docs := l; cursors := cursors s; fault := fault s |}.

(** The answers of the collection. The caller's context is not looked
    at: a round trip completes even when the context is done, which is
    the case of an answer that arrives while the context is being
    cancelled. As with the driver, an insertion of no document at all
    is refused before the store is reached, a write that matches no
    document answers a nil error (the zero count of its result is not
    an error), and only a read of one document that finds none answers
    [ErrNoDocuments]. Resolving the collection never fails, as with
    [NewHandler]. *)
Definition answer (c : call) (s : store) : resp c * store :=
  match c return resp c * store with
  | Resolve _ => (None, s)
  | InsertMany _ ms =>
      match ms with
      | [] => (Some (OtherError "must provide at least one element in input slice"), s)
      | _ :: _ =>
          match fault s with
          | Some e => (Some e, s)
          | None =>
              let '(err, l) := insert_many ms (docs s) in (err, with_docs s l)
          end
      end
  | UpdateByID _ id (SetDoc m) =>
      match fault s with
      | Some e => (Some e, s)
      | None =>
          if decide (mID m = id \/ ¬ (has_id id (docs s) = true)) then
            match update_by_id id m (docs s) with
            | Some l => (None, with_docs s l)
            | None => (None, s)
            end
          else (Some (WriteError 66), s)
      end
  | DeleteOne _ f =>
      match fault s with
      | Some e => (Some e, s)
      | None =>
          match delete_one f (docs s) with
          | Some l => (None, with_docs s l)
          | None => (None, s)
          end
      end
  | FindOne _ f =>
      match fault s with
      | Some e => (Some e, s)
      | None =>
          if decide (0 < count f (docs s)) then (None, s)
          else (Some ErrNoDocuments, s)
      end
  | Find _ f o =>
      match fault s with
      | Some e => ((None, Some e), s)
      | None =>
          ((Some (length (cursors s)), None),
           {| docs := docs s; cursors := cursors s ++ [select f o (docs s)];
              fault := fault s |})
      end
  | CursorAll _ cur =>
      match fault s, cursors s !! cur with
      | None, Some l => ((decode <$> l, None), s)
      | Some e, _ => (([], Some e), s)
      | None, None => (([], Some (OtherError "cursor")), s)
      end
  | CursorClose _ cur =>
      match fault s with
      | Some e => (Some e, s)
      | None => (None, s)
      end
  | SelectIDs _ cur =>
      match fault s, cursors s !! cur with
      | None, Some l => ((d_id <$> l, None), s)
      | Some e, _ => (([], Some e), s)
      | None, None => (([], Some (OtherError "cursor")), s)
      end
  | DeleteMany _ f =>
      match fault s with
      | Some e => ((None, Some e), s)
      | None => ((Some (count f (docs s)), None), with_docs s (remaining f (docs s)))
      end
  | CountDocuments _ f =>
      match fault s with
      | Some e => ((0, Some e), s)
      | None => ((count f (docs s), None), s)
      end
  end.

Definition collection : driver store := mkDriver store answer.

(** A collection holding the given documents, with no fault. *)
Definition holding (l : list document) : store :=
  {| docs := l; cursors := []; fault := None |}.

End Mem.

(** ** A query translator *)

Module Native.

(** Modelled from the spec: [getQuery] is not in [mongo.go]. It renders
    the filter into the store's predicates, one condition per field,
    and fails on what it cannot render; the same query always gives the
    same result. *)
Fixpoint translate (p : list Expression) : bsonM + error :=
  match p with
  | [] => inl ∅
  | e :: rest =>
      match translate rest with
      | inr err => inr err
      | inl m =>
          match e with
          | Equal f v => inl (<[f := CEq v]> m)
          | InSet f vs => inl (<[f := CIn vs]> m)
          | Exist f => inl (<[f := CExists true]> m)
          | NotExist f => inl (<[f := CExists false]> m)
          | Unsupported what => inr (OtherError what)
          end
      end
  end.

(** Modelled from the spec: [getSort] is not in [mongo.go]. It renders
    the sort directives into an ordered sequence of fields, each
    ascending (1) or descending (-1). *)
Definition sort_of (q : Query) : FindOptions :=
  {| Sort := (fun sf => (Name sf, if Reversed sf then -1 else 1)) <$> QSort q;
     Skip := None; FLimit := None; Projection := None |}.

(** Modelled from the spec: [applyWindow] is not in [mongo.go]. It
    renders the window into the store's skip and limit controls. *)
Definition window_of (o : FindOptions) (w : option Window.t) : FindOptions :=
  match w with
  | None => o
  | Some w =>
      {| Sort := Sort o; Skip := Some (Window.Offset w);
         FLimit := Some (Window.Limit w); Projection := Projection o |}
  end.

Definition translator : Translator :=
  {| getQuery q := translate (Predicate q);
     getSort := sort_of;
     applyWindow := window_of |}.

End Native.

(** ** The handler built by [NewHandler] *)

(** [NewHandler] creates a handler for a collection of the client: the
    function it returns gives the collection and a nil error whatever the
    context. In an environment, this is the resolution answering nil and
    leaving every other call to the client. *)
Definition NewHandler {S : Type} (c : driver S) : driver S :=
  mkDriver S (fun k s =>
    match k return resp k * S with
    | Resolve _ => (None, s)
    | other => respond c other s
    end).

(** ** The ObjectID field *)

Module ObjectID.

(** The value of one hexadecimal digit, in either case, as
    [encoding/hex] reads it. *)
Definition hex_value (c : ascii) : option N :=
  let n := N_of_ascii c in
  if (48 <=? n)%N && (n <=? 57)%N then Some (n - 48)%N
  else if (97 <=? n)%N && (n <=? 102)%N then Some (n - 87)%N
  else if (65 <=? n)%N && (n <=? 70)%N then Some (n - 55)%N
  else None.

(** [hex.DecodeString]: two digits per byte; an odd length or a
    character that is no digit is an error. *)
Fixpoint DecodeString (s : string) : option (list byte) :=
  match s with
  | EmptyString => Some []
  | String _ EmptyString => None
  | String hi (String lo rest) =>
      match hex_value hi, hex_value lo, DecodeString rest with
      | Some h, Some l, Some bytes =>
          match Byte.of_N (h * 16 + l) with
          | Some b => Some (b :: bytes)
          | None => None
          end
      | _, _, _ => None
      end
  end.

(** [primitive.ObjectIDFromHex]: the string must be 24 characters long
    and decode as hexadecimal. *)
Definition ObjectIDFromHex (s : string) : list byte + error :=
  if Nat.eqb (String.length s) 24 then
    match DecodeString s with
    | Some raw => inl raw
    | None => inr (OtherError "encoding/hex: invalid byte")
    end
  else inr (OtherError "the provided hex string is not a valid ObjectID").

(** [ObjectID.Validate]: an [ObjectID] is accepted as it is, a string
    when it is the hexadecimal form of one, nothing else. *)
Definition Validate (v : value) : value + error :=
  match v with
  | VObjectID id => inl (VObjectID id)
  | VStr s =>
      match ObjectIDFromHex s with
      | inr _ => inr (OtherError "invalid object id")
      | inl id => inl (VObjectID id)
      end
  | _ => inr (OtherError "invalid object id")
  end.

(** [NewObjectID], the hook for [OnInit]: a nil value is replaced by the
    hexadecimal form of a new identifier, [fresh] being what
    [primitive.NewObjectID()] generates. *)
Definition NewObjectID (fresh : list byte) (ctx : Context) (v : value) : value :=
  match v with
  | VNil => VStr (Hex fresh)
  | other => other
  end.

(** A character the pattern of [BuildJSONSchema], [^[0-9a-fA-F]{24}$],
    allows. *)
Definition hex_char (c : ascii) : bool :=
  let n := N_of_ascii c in
  ((48 <=? n)%N && (n <=? 57)%N) || ((97 <=? n)%N && (n <=? 102)%N)
  || ((65 <=? n)%N && (n <=? 70)%N).

(** The strings the pattern matches. *)
Definition matches_pattern (s : string) : bool :=
  Nat.eqb (String.length s) 24 && forallb hex_char (list_ascii_of_string s).

End ObjectID.

(** ** Sample data *)

Module Sample.

(** Document [n]: identifier [n], a real version tag, and two payload
    fields; the rank decreases as the identifier grows. *)
Definition doc (n : Z) : Mem.document :=
  Mem.mkDoc (VInt n) (Some "v1") 0
    {[ "rank" := VInt (20 - n); "kind" := VStr "a" ]}.

Definition ten : Mem.store := Mem.holding (doc <$> [1; 2; 3; 4; 5; 6; 7; 8; 9; 10]).
Definition twelve : Mem.store :=
  Mem.holding (doc <$> [1; 2; 3; 4; 5; 6; 7; 8; 9; 10; 11; 12]).

(** A collection that no round trip reaches. *)
Definition unreachable : Mem.store :=
  {| Mem.docs := Mem.docs ten; Mem.cursors := [];
     Mem.fault := Some (OtherError "connection refused") |}.

(** All documents of kind a, by increasing rank, under a window. *)
Definition by_rank (w : option Window.t) : Query :=
  mkQuery [Equal "kind" (VStr "a")] [mkSortField "rank" false] w.

(** Documents of a kind no document has. *)
Definition none_such : Query := mkQuery [Equal "kind" (VStr "z")] [] None.

Definition item (n : Z) (etag : string) : Item :=
  mkItem (VInt n) etag 1 (Some {[ "id" := VInt n; "kind" := VStr "b" ]}).

(** An environment without state, answering from a fixed script. *)
Definition scripted (answers : forall c : call, resp c) : driver unit :=
  mkDriver unit (fun c s => (answers c, s)).

(** A store whose bulk delete removes 4 documents and then fails; every
    other round trip succeeds. *)
Definition partial_delete (c : call) : resp c :=
  match c return resp c with
  | Resolve _ => None
  | InsertMany _ _ => None
  | UpdateByID _ _ _ => None
  | DeleteOne _ _ => None
  | FindOne _ _ => None
  | Find _ _ _ => (Some 0%nat, None)
  | CursorAll _ _ => ([], None)
  | CursorClose _ _ => None
  | SelectIDs _ _ => ([], None)
  | DeleteMany _ _ => (Some 4, Some (WriteError 10334))
  | CountDocuments _ _ => (0, None)
  end.

Definition Find := @Handler.Find Native.translator.
Definition Count := @Handler.Count Native.translator.
Definition Clear := @Handler.Clear Native.translator.

(** The list a run of [Find] returned, if it returned one. *)
Definition found (o : outcome (option ItemList.t * option error)) : ItemList.t :=
  match o with
  | Returned (Some l, _) => l
  | _ => ItemList.mk 0 0 []
  end.

Definition full_page : ItemList.t :=
  found (result Mem.collection (Find Live (by_rank (Some (Window.mk 0 5)))) twelve).
Definition last_page : ItemList.t :=
  found (result Mem.collection (Find Live (by_rank (Some (Window.mk 10 5)))) twelve).

End Sample.

(** ** More sample data *)

Module Scenario.

(** A handler that cannot resolve its collection. *)
Definition no_handle (c : call) : resp c :=
  match c return resp c with
  | Resolve _ => Some (OtherError "no session")
  | other => Sample.partial_delete other
  end.

(** A store whose reads fail, with a nil cursor. *)
Definition read_fails (c : call) : resp c :=
  match c return resp c with
  | Find _ _ _ => (None, Some (OtherError "server selection timeout"))
  | other => Sample.partial_delete other
  end.

(** A store whose cursors break while the identifiers are collected. *)
Definition ids_fail (c : call) : resp c :=
  match c return resp c with
  | SelectIDs _ _ => ([], Some (OtherError "cursor closed"))
  | other => Sample.partial_delete other
  end.

(** A store that answers [ErrNoDocuments] to a write that matched no
    document, as [Update] and [Delete] test for, and that finds no
    document either. *)
Definition reports_no_match (c : call) : resp c :=
  match c return resp c with
  | UpdateByID _ _ _ => Some ErrNoDocuments
  | DeleteOne _ _ => Some ErrNoDocuments
  | FindOne _ _ => Some ErrNoDocuments
  | other => Sample.partial_delete other
  end.

(** The same, with a document found by the read. *)
Definition reports_stale (c : call) : resp c :=
  match c return resp c with
  | UpdateByID _ _ _ => Some ErrNoDocuments
  | DeleteOne _ _ => Some ErrNoDocuments
  | other => Sample.partial_delete other
  end.

(** An item whose payload holds another identifier under ["id"]. *)
Definition foreign_id : Item :=
  mkItem (VInt 3) "v1" 1 (Some {[ "id" := VInt 7; "kind" := VStr "b" ]}).

(** Items without version tag and without payload. *)
Definition bare (id : value) : Item := mkItem id EmptyString 1 None.

(** A query with a predicate the translator does not render. *)
Definition refused : Query := mkQuery [Unsupported "regex"] [] None.

(** A 12-byte identifier. *)
Definition oid : list byte :=
  [x5f; x00; xab; xff; x01; x23; x45; x67; x89; xcd; xef; x10]%byte.

(** A document stored before version tags were written. *)
Definition legacy : Mem.document :=
  Mem.mkDoc (VInt 40) None 0 {[ "kind" := VStr "a" ]}.

End Scenario.

(** * Properties *)

(** ** Machine integers *)

Lemma wrap_in_range z : in_int z -> wrap z = z.
Proof.
  unfold in_int, int_min, int_max, wrap. intros H.
  rewrite Z.mod_small; lia.
Qed.

Lemma int_add_exact a b : in_int (a + b) -> int_add a b = a + b.
Proof. apply wrap_in_range. Qed.

Lemma len_nonneg {A} (xs : list A) : 0 <= len xs.
Proof. unfold len. lia. Qed.

(** ** The item translator *)

Lemma strip_id_delete (m : gmap string value) :
  filter (fun kv : string * value => kv.1 ≠ "id") m = delete "id" m.
Proof.
  apply map_eq. intros k.
  destruct (decide (k = "id")) as [->|Hk].
  - rewrite lookup_delete_eq. apply map_lookup_filter_None. right.
    intros v _ Hne. simpl in Hne. congruence.
  - rewrite lookup_delete_ne by congruence.
    destruct (m !! k) as [v|] eqn:Hm.
    + apply map_lookup_filter_Some. split; [exact Hm | exact Hk].
    + apply map_lookup_filter_None. left. exact Hm.
Qed.

Lemma newMongoItem_payload (i : Item) :
  mPayload (newMongoItem i) = Some (delete "id" (entries (Payload i))).
Proof. unfold newMongoItem. simpl. by rewrite strip_id_delete. Qed.

Lemma newItem_tag (m : mongoItem) :
  ETag (newItem m) =
    if decide (mETag m = EmptyString) then "p-" ++ id_text (mID m) else mETag m.
Proof. unfold newItem. simpl. by destruct (decide (mETag m = EmptyString)). Qed.

Lemma newItem_payload (m : mongoItem) :
  Payload (newItem m) = Some (<["id" := mID m]> (entries (mPayload m))).
Proof.
  unfold newItem, entries. simpl.
  destruct (decide (mETag m = EmptyString)); simpl; by destruct (mPayload m).
Qed.

Lemma roundtrip_eq (i : Item) :
  newItem (newMongoItem i) =
    {| ID := ID i;
       ETag := if decide (ETag i = EmptyString)
               then "p-" ++ id_text (ID i) else ETag i;
       Updated := Updated i;
       Payload := Some (<["id" := ID i]> (entries (Payload i))) |}.
Proof.
  unfold newItem. rewrite newMongoItem_payload. simpl.
  rewrite insert_delete_eq.
  by destruct (decide (ETag i = EmptyString)).
Qed.

(** An item that carries its identifier under ["id"] and a real version
    tag comes back unchanged. *)
Lemma roundtrip_identity (i : Item) (p : gmap string value) :
  Payload i = Some p -> p !! "id" = Some (ID i) -> ETag i ≠ EmptyString ->
  newItem (newMongoItem i) = i.
Proof.
  intros Hp Hid Htag. rewrite roundtrip_eq.
  destruct (decide (ETag i = EmptyString)); [done|].
  destruct i as [id tag upd pl]. simpl in *. subst pl. simpl.
  by rewrite insert_id.
Qed.

Lemma newItem_nonempty_tag (m : mongoItem) : ETag (newItem m) ≠ EmptyString.
Proof.
  rewrite newItem_tag. destruct (decide (mETag m = EmptyString)); [|done].
  discriminate.
Qed.

(** An item comes back equal exactly when its payload holds its own
    identifier under ["id"] and its version tag is not empty. *)
Lemma roundtrip_fixed_points (i : Item) :
  newItem (newMongoItem i) = i
  <-> (exists p, Payload i = Some p /\ p !! "id" = Some (ID i))
      /\ ETag i ≠ EmptyString.
Proof.
  split.
  - intros Hsame. split.
    + exists (<["id" := ID i]> (entries (Payload i))). split.
      * rewrite <- Hsame at 1. by rewrite roundtrip_eq.
      * apply lookup_insert_eq.
    + rewrite <- Hsame. apply newItem_nonempty_tag.
  - intros [(p & Hp & Hid) Htag]. by apply (roundtrip_identity i p).
Qed.

(** C4, as the translators have it. For every item, the translation to
    the stored form and back keeps the identifier and the timestamp,
    keeps a version tag that is not empty, and turns an empty one into
    ["p-"] followed by the text of the identifier: the hexadecimal form
    of an [ObjectID], a string as it is, an integer in decimal, a
    boolean as [true] or [false], nil as [<nil>]; the tag that comes
    back is never empty. The payload comes back with the identifier
    under ["id"], whatever it held there, and its other entries
    unchanged: the stored payload has no ["id"] entry, and a nil payload
    read back from the store becomes the map holding ["id"] alone. A
    document stored without version field is read with the synthetic
    tag. The result is the item itself exactly when its payload held
    its identifier under ["id"] and its tag was not empty. *)
Theorem newItem_newMongoItem_roundtrip (i : Item) :
  newItem (newMongoItem i) =
    {| ID := ID i;
       ETag := if decide (ETag i = EmptyString)
               then "p-" ++ match ID i with
                            | VObjectID raw => Hex raw
                            | VStr s => s
                            | VInt n => pretty n
                            | VBool true => "true"
                            | VBool false => "false"
                            | VNil => "<nil>"
                            end
               else ETag i;
       Updated := Updated i;
       Payload := Some (<["id" := ID i]> (entries (Payload i))) |}
  /\ ETag (newItem (newMongoItem i)) ≠ EmptyString
  /\ (exists p, mPayload (newMongoItem i) = Some p /\ p !! "id" = None
        /\ forall k, k ≠ "id" -> p !! k = entries (Payload i) !! k)
  /\ (forall id t u,
        Payload (newItem {| mID := id; mETag := t; mUpdated := u;
                            mPayload := None |})
        = Some {[ "id" := id ]})
  /\ (forall s u,
        newItem {| mID := VStr s; mETag := EmptyString; mUpdated := u;
                   mPayload := None |}
        = {| ID := VStr s; ETag := "p-" ++ s; Updated := u;
             Payload := Some {[ "id" := VStr s ]} |})
  /\ (forall raw s u f,
        ETag (newItem (Mem.decode (Mem.mkDoc (VObjectID raw) None u f)))
        = "p-" ++ Hex raw
        /\ ETag (newItem (Mem.decode (Mem.mkDoc (VStr s) None u f)))
           = "p-" ++ s)
  /\ (newItem (newMongoItem i) = i
      <-> (exists p, Payload i = Some p /\ p !! "id" = Some (ID i))
          /\ ETag i ≠ EmptyString).
Proof.
  split_and!.
  - rewrite roundtrip_eq. by destruct (ID i) as [|[]| | |].
  - apply newItem_nonempty_tag.
  - exists (delete "id" (entries (Payload i))).
    split; [apply newMongoItem_payload|].
    split; [apply lookup_delete_eq|].
    intros k Hk. apply lookup_delete_ne. congruence.
  - intros id t u. rewrite newItem_payload. reflexivity.
  - intros s u. reflexivity.
  - intros raw s u f. rewrite !newItem_tag. by split.
  - apply roundtrip_fixed_points.
Qed.

Lemma newItem_newMongoItem_roundtrip_witness :
  newItem (newMongoItem (Scenario.bare (VObjectID Scenario.oid)))
  = mkItem (VObjectID Scenario.oid) "p-5f00abff0123456789cdef10" 1
      (Some {[ "id" := VObjectID Scenario.oid ]})
  /\ newItem (newMongoItem (Scenario.bare (VInt (-42))))
     = mkItem (VInt (-42)) "p--42" 1 (Some {[ "id" := VInt (-42) ]})
  /\ newItem (newMongoItem (Scenario.bare (VStr "u-17")))
     = mkItem (VStr "u-17") "p-u-17" 1 (Some {[ "id" := VStr "u-17" ]})
  /\ newItem (newMongoItem (Sample.item 3 "v1")) = Sample.item 3 "v1".
Proof.
  split_and!.
  - destruct (newItem_newMongoItem_roundtrip
                (Scenario.bare (VObjectID Scenario.oid))) as [-> _].
    vm_compute. reflexivity.
  - destruct (newItem_newMongoItem_roundtrip (Scenario.bare (VInt (-42))))
      as [-> _].
    vm_compute. reflexivity.
  - destruct (newItem_newMongoItem_roundtrip (Scenario.bare (VStr "u-17")))
      as [-> _].
    vm_compute. reflexivity.
  - destruct (newItem_newMongoItem_roundtrip (Sample.item 3 "v1"))
      as (_ & _ & _ & _ & _ & _ & Hsame).
    apply Hsame. split; [|discriminate].
    exists {[ "id" := VInt 3; "kind" := VStr "b" ]}.
    split; [reflexivity | vm_compute; reflexivity].
Defined.

(** An item whose payload holds another identifier under ["id"] does not
    come back as it was: its tag is kept, and its ["id"] entry is
    replaced by the identifier. *)
Lemma roundtrip_replaces_foreign_id :
  newItem (newMongoItem Scenario.foreign_id) ≠ Scenario.foreign_id
  /\ ETag (newItem (newMongoItem Scenario.foreign_id)) = ETag Scenario.foreign_id
  /\ entries (Payload Scenario.foreign_id) !! "id" = Some (VInt 7)
  /\ entries (Payload (newItem (newMongoItem Scenario.foreign_id))) !! "id"
     = Some (VInt 3).
Proof.
  split_and!; try (vm_compute; reflexivity).
  intros Heq.
  apply (f_equal (fun i => entries (Payload i) !! "id")) in Heq.
  vm_compute in Heq. discriminate.
Qed.

(** ** Synthetic tags on concrete identifiers *)

Example synthetic_tag_object_id :
  ETag (newItem (newMongoItem
          (mkItem (VObjectID [x5f; x00; xab; xff]%byte) EmptyString 5 None)))
  = "p-5f00abff".
Proof. vm_compute. reflexivity. Qed.

Example synthetic_tag_integer :
  newItem (newMongoItem
     (mkItem (VInt (-42)) EmptyString 5 (Some {[ "id" := VInt 7; "n" := VNil ]})))
  = mkItem (VInt (-42)) "p--42" 5 (Some {[ "id" := VInt (-42); "n" := VNil ]}).
Proof. vm_compute. reflexivity. Qed.

(** ** Running the operations *)

Section Running.

Context {S : Type} (d : driver S).

Lemma run_bind {A B} (p : prog A) (f : A -> prog B) (s : S) :
  run d (bind p f) s =
    match run d p s with
    | (Returned a, s1, log1) =>
        let '(o, s2, log2) := run d (f a) s1 in (o, s2, (log1 ++ log2)%list)
    | (Panicked, s1, log1) => (Panicked, s1, log1)
    end.
Proof.
  revert s. induction p as [a| |c k IH]; intros s; simpl.
  - by destruct (run d (f a) s) as [[o s2] log2].
  - reflexivity.
  - destruct (respond d c s) as [a s1]. rewrite IH.
    destruct (run d (k a) s1) as [[[r|] s2] log1]; [|reflexivity].
    by destruct (run d (f r) s2) as [[o s3] log2].
Qed.

End Running.

(** One round trip of a run: name the answer and the next state. *)
Ltac round_trip :=
  match goal with
  | |- context [respond ?d ?c ?s] =>
      let a := fresh "a" in let s1 := fresh "s" in let E := fresh "E" in
      destruct (respond d c s) as [a s1] eqn:E; simpl in a, E |- *
  end.

(** Unfold the operations and the projections of a run. *)
Ltac unfold_ops :=
  unfold ended_in_delete, result, final, calls, trips,
    Handler.Insert, Handler.Update, Handler.Delete,
    Handler.Clear, Handler.Find, Handler.Count, selectIDs, ask,
    mbind, prog_bind in *.

(** Two answers to the same call in the same state are the same. *)
Ltac same_answers :=
  simplify_eq;
  repeat match goal with
         | E : respond ?d ?c ?s = _, E' : respond ?d ?c ?s = _ |- _ =>
             rewrite E in E'; simplify_eq
         end.

(** One case distinction the operation makes on an answer or an input. *)
Ltac case_step :=
  match goal with
  | |- context [match ?x with _ => _ end] => is_var x; destruct x
  | |- context [getQuery ?q] => destruct (getQuery q) eqn:?
  | |- context [match QWindow ?q with _ => _ end] => destruct (QWindow q) eqn:?
  | |- context [decide ?P] => destruct (decide P)
  | |- context [match Err ?c with _ => _ end] => destruct (Err c) eqn:?
  | |- context [if IsDuplicateKeyError ?a then _ else _] =>
      destruct (IsDuplicateKeyError a) eqn:?
  end.

(** Run an operation through, case by case. *)
Ltac exec :=
  unfold_ops;
  repeat (cbn; first [round_trip | case_step]);
  cbn.

(** ** Find and Count *)

Section FindProps.

Context `{!Translator} {S : Type} (d : driver S).

(** A list returned by the read path carries the total deduced from
    its own length. *)
Lemma Find_read_total (ctx : Context) (q : Query) (s : S)
    (l : ItemList.t) (e : option error) :
  result d (Handler.Find ctx q) s = Returned (Some l, e) ->
  (forall w, QWindow q = Some w -> Window.Limit w <> 0) ->
  ItemList.Total l =
    Handler.deduce_total (QWindow q)
      (match QWindow q with Some w => Window.Limit w | None => -1 end)
      (len (ItemList.Items l)).
Proof.
  exec; intros Hr Hw; simplify_eq; try reflexivity.
  exfalso. by eapply Hw.
Qed.

(** C10. Whenever [Find] returns a list, its [Limit] field is the limit
    of the window when the query has one and -1 when it has none; this
    covers the read path, and the window of limit 0 as well. *)
Theorem Find_limit_field (ctx : Context) (q : Query) (s : S)
    (l : ItemList.t) (e : option error) :
  result d (Handler.Find ctx q) s = Returned (Some l, e) ->
  ItemList.Limit l =
    match QWindow q with
    | Some w => Window.Limit w
    | None => -1
    end.
Proof.
  exec; intros Hr; simplify_eq; reflexivity.
Qed.

(** C5. When [Find] returns a list and no error, with [n] the number of
    items returned: after a full page (a window with a positive limit
    and [n] equal to it) the total is -1; with no window the total is
    [n]; after a short page the total is the offset plus [n] when the
    offset is positive and [n] is positive, -1 when the offset is
    positive and [n] is 0, and [n] when no positive offset was asked.
    The sum is the handler's [int] addition, which is the mathematical
    sum whenever that fits in an [int]. *)
Theorem Find_total_inference (ctx : Context) (q : Query) (s : S)
    (l : ItemList.t) :
  result d (Handler.Find ctx q) s = Returned (Some l, None) ->
  let n := len (ItemList.Items l) in
  (forall w, QWindow q = Some w -> 0 < Window.Limit w -> n = Window.Limit w ->
     ItemList.Total l = -1)
  /\ (QWindow q = None -> ItemList.Total l = n)
  /\ (forall w, QWindow q = Some w -> n < Window.Limit w ->
       (0 < Window.Offset w -> 0 < n ->
          ItemList.Total l = int_add (Window.Offset w) n
          /\ (in_int (Window.Offset w + n) ->
                ItemList.Total l = Window.Offset w + n))
       /\ (0 < Window.Offset w -> n = 0 -> ItemList.Total l = -1)
       /\ (Window.Offset w <= 0 -> ItemList.Total l = n)).
Proof.
  intros Hr n.
  pose proof (len_nonneg (ItemList.Items l)) as Hn. fold n in Hn.
  pose proof (Find_read_total ctx q s l None Hr) as Ht. fold n in Ht.
  split; [|split].
  - intros w Hw Hpos Hfull. rewrite Ht.
    + rewrite Hw. unfold Handler.deduce_total.
      rewrite bool_decide_eq_false_2; [reflexivity | lia].
    + intros w' Hw'. rewrite Hw in Hw'. injection Hw' as <-. lia.
  - intros Hw. rewrite Ht.
    + rewrite Hw. unfold Handler.deduce_total.
      rewrite bool_decide_eq_true_2; [reflexivity | lia].
    + intros w' Hw'. congruence.
  - intros w Hw Hshort.
    assert (ItemList.Total l =
              Handler.deduce_total (Some w) (Window.Limit w) n) as ->.
    { rewrite Ht; [by rewrite Hw|].
      intros w' Hw'. rewrite Hw in Hw'. injection Hw' as <-. lia. }
    unfold Handler.deduce_total.
    rewrite (bool_decide_eq_true_2 (Window.Limit w < 0 \/ n < Window.Limit w))
      by lia.
    split; [|split].
    + intros Hoff Hn0.
      rewrite (bool_decide_eq_true_2 (Window.Offset w > 0)) by lia.
      rewrite (bool_decide_eq_true_2 (n > 0)) by lia.
      split; [reflexivity|]. intros Hfit. by apply int_add_exact.
    + intros Hoff Hn0.
      rewrite (bool_decide_eq_true_2 (Window.Offset w > 0)) by lia.
      rewrite (bool_decide_eq_false_2 (n > 0)) by lia. reflexivity.
    + intros Hoff.
      rewrite (bool_decide_eq_false_2 (Window.Offset w > 0)) by lia.
      reflexivity.
Qed.

(** C8. For a window of limit 0, [Find] makes exactly the round trips
    of [Count] and leaves the same state: resolving the collection and
    one count on the translated filter, which carries no skip and no
    limit; the read, its cursor and [selectIDs] are never called. It
    returns no item, limit 0 and as total the count the store answered;
    when [Count] fails it returns the error and no list. *)
Theorem Find_limit_zero_counts (ctx : Context) (q : Query) (s : S)
    (w : Window.t) :
  QWindow q = Some w -> Window.Limit w = 0 ->
  calls d (Handler.Find ctx q) s = calls d (Handler.Count ctx q) s
  /\ final d (Handler.Find ctx q) s = final d (Handler.Count ctx q) s
  /\ Forall (fun c => c = Resolve ctx \/
                exists qry, getQuery q = inl qry /\ c = CountDocuments ctx qry)
       (calls d (Handler.Find ctx q) s)
  /\ result d (Handler.Find ctx q) s =
       match result d (Handler.Count ctx q) s with
       | Returned (n, None) => Returned (Some (ItemList.mk n 0 []), None)
       | Returned (_, Some e) => Returned (None, Some e)
       | Panicked => Panicked
       end
  /\ (forall qry s1 cnt s2,
        getQuery q = inl qry ->
        respond d (Resolve ctx) s = (None, s1) ->
        respond d (CountDocuments ctx qry) s1 = ((cnt, None), s2) ->
        result d (Handler.Find ctx q) s =
          Returned (Some (ItemList.mk (int_of_int64 cnt) 0 []), None)).
Proof.
  intros Hw Hl. unfold_ops. rewrite Hw.
  destruct (decide (Window.Limit w = 0)) as [_|]; [|done].
  rewrite Hl. clear Hw Hl.
  destruct (getQuery q) as [qry|e] eqn:Hq; cbn.
  - destruct (respond d (Resolve ctx) s) as [[e|] s1] eqn:E1; cbn.
    + split_and!; try reflexivity; [|intros; same_answers; done].
      constructor; [by left | constructor].
    + destruct (respond d (CountDocuments ctx qry) s1) as [[cnt [e|]] s2] eqn:E2;
        cbn.
      all: split_and!; try reflexivity; [|intros; same_answers; done].
      all: constructor; [by left|].
      all: constructor; [right; by exists qry | constructor].
  - split_and!; try reflexivity; [constructor | intros; same_answers; done].
Qed.

End FindProps.

Lemma Find_limit_field_witness :
  ItemList.Limit Sample.last_page = 5.
Proof.
  apply (@Find_limit_field Native.translator _ Mem.collection Live
           (Sample.by_rank (Some (Window.mk 10 5))) Sample.twelve
           Sample.last_page None).
  vm_compute. reflexivity.
Defined.

Lemma Find_total_inference_witness :
  len (ItemList.Items Sample.last_page) = 2
  /\ ItemList.Total Sample.last_page = 10 + 2.
Proof.
  split; [vm_compute; reflexivity|].
  assert (result Mem.collection
            (Sample.Find Live (Sample.by_rank (Some (Window.mk 10 5))))
            Sample.twelve
          = Returned (Some Sample.last_page, None)) as Hr
    by (vm_compute; reflexivity).
  destruct (@Find_total_inference Native.translator _ Mem.collection Live _ _ _ Hr) as (_ & _ & Hshort).
  destruct (Hshort (Window.mk 10 5) eq_refl) as (Hsum & _ & _);
    [vm_compute; reflexivity|].
  destruct Hsum as [_ Hexact]; [vm_compute; reflexivity ..|].
  apply Hexact. replace (len (ItemList.Items Sample.last_page)) with 2
    by (vm_compute; reflexivity).
  unfold in_int, int_min, int_max. simpl. lia.
Defined.

(** The two pages of the specification's example: 12 matching documents
    read 5 at a time. *)
Example Find_full_page :
  len (ItemList.Items Sample.full_page) = 5 /\ ItemList.Total Sample.full_page = -1.
Proof. vm_compute. split; reflexivity. Qed.

Example Find_last_page :
  len (ItemList.Items Sample.last_page) = 2 /\ ItemList.Total Sample.last_page = 12.
Proof. vm_compute. split; reflexivity. Qed.

Lemma Find_limit_zero_counts_witness :
  calls Mem.collection (Sample.Find Live (Sample.by_rank (Some (Window.mk 3 0))))
    Sample.twelve
  = calls Mem.collection (Sample.Count Live (Sample.by_rank (Some (Window.mk 3 0))))
      Sample.twelve
  /\ result Mem.collection
       (Sample.Find Live (Sample.by_rank (Some (Window.mk 3 0)))) Sample.twelve
     = Returned (Some (ItemList.mk 12 0 []), None).
Proof.
  destruct (@Find_limit_zero_counts Native.translator _ Mem.collection Live
              (Sample.by_rank (Some (Window.mk 3 0))) Sample.twelve
              (Window.mk 3 0) eq_refl eq_refl) as (Hc & _ & _ & Hr & _).
  unfold Sample.Find, Sample.Count.
  split; [exact Hc|].
  rewrite Hr. vm_compute. reflexivity.
Defined.

(** ** Count *)

Section CountProps.

Context `{!Translator} {S : Type} (d : driver S).

(** The outcomes of [Count]. It returns -1 with the error when
    the query translation or the resolution of the collection fails.
    Once the count is issued it returns what the store answered, the
    count converted to [int] and the error: after a store-level failure
    the count is the one the store gave with the error, not -1. With no
    error the in-memory collection answers the number of matching
    documents, which is never negative and is 0 when none matches. *)
Theorem Count_outcomes (ctx : Context) (q : Query) (s : S) :
  (forall e, getQuery q = inr e ->
     result d (Handler.Count ctx q) s = Returned (-1, Some e))
  /\ (forall qry e s1,
        getQuery q = inl qry -> respond d (Resolve ctx) s = (Some e, s1) ->
        result d (Handler.Count ctx q) s = Returned (-1, Some e))
  /\ (forall qry s1 cnt err s2,
        getQuery q = inl qry -> respond d (Resolve ctx) s = (None, s1) ->
        respond d (CountDocuments ctx qry) s1 = ((cnt, err), s2) ->
        result d (Handler.Count ctx q) s = Returned (int_of_int64 cnt, err))
  /\ (forall qry l,
        getQuery q = inl qry -> in_int (Mem.count qry l) ->
        result Mem.collection (Handler.Count ctx q) (Mem.holding l)
        = Returned (Mem.count qry l, None)
        /\ 0 <= Mem.count qry l).
Proof.
  split_and!.
  - intros e Hq. unfold_ops. by rewrite Hq.
  - intros qry e s1 Hq E1. unfold_ops. rewrite Hq. cbn. by rewrite E1.
  - intros qry s1 cnt err s2 Hq E1 E2. unfold_ops. rewrite Hq. cbn.
    rewrite E1. cbn. by rewrite E2.
  - intros qry l Hq Hfit. split; [|apply len_nonneg].
    unfold_ops. rewrite Hq. cbn.
    unfold int_of_int64. by rewrite wrap_in_range.
Qed.

(** C9, where the handler departs from it. When the count itself fails
    in the store, [Count] returns the error with the count the store
    call gave, converted to [int], and not with -1 as on its two other
    failure paths: with the zero count the driver gives beside an error,
    the result is 0 and the error. *)
Theorem Count_store_failure_forwards_count (ctx : Context) (q : Query)
    (qry : bsonM) (s s1 s2 : S) (cnt : Z) (e : error) :
  getQuery q = inl qry ->
  respond d (Resolve ctx) s = (None, s1) ->
  respond d (CountDocuments ctx qry) s1 = ((cnt, Some e), s2) ->
  result d (Handler.Count ctx q) s = Returned (int_of_int64 cnt, Some e)
  /\ (cnt = 0 -> result d (Handler.Count ctx q) s = Returned (0, Some e))
  /\ (in_int cnt -> cnt <> -1 ->
      result d (Handler.Count ctx q) s <> Returned (-1, Some e)).
Proof.
  intros Hq E1 E2.
  assert (result d (Handler.Count ctx q) s
          = Returned (int_of_int64 cnt, Some e)) as Hr.
  { unfold_ops. rewrite Hq. cbn. rewrite E1. cbn. by rewrite E2. }
  split_and!.
  - exact Hr.
  - intros ->. exact Hr.
  - intros Hfit Hne. rewrite Hr. unfold int_of_int64.
    rewrite wrap_in_range by done. intros [= Heq]. done.
Qed.

End CountProps.

Lemma Count_store_failure_forwards_count_witness :
  result Mem.collection (Sample.Count Live Sample.none_such) Sample.unreachable
  = Returned (0, Some (OtherError "connection refused")).
Proof.
  destruct (@Count_store_failure_forwards_count Native.translator _
              Mem.collection Live Sample.none_such
              {[ "kind" := CEq (VStr "z") ]}
              Sample.unreachable Sample.unreachable Sample.unreachable
              0 (OtherError "connection refused"))
    as (_ & Hzero & _); [vm_compute; reflexivity ..|].
  by apply Hzero.
Defined.

Lemma Count_outcomes_witness :
  result Mem.collection (Sample.Count Live Sample.none_such) Sample.ten
  = Returned (0, None).
Proof.
  destruct (@Count_outcomes Native.translator _ Mem.collection Live
              Sample.none_such Sample.ten) as (_ & _ & _ & Hmem).
  destruct (Hmem {[ "kind" := CEq (VStr "z") ]} (Mem.docs Sample.ten)) as [Hr _].
  - vm_compute. reflexivity.
  - replace (Mem.count {[ "kind" := CEq (VStr "z") ]} (Mem.docs Sample.ten))
      with 0 by (vm_compute; reflexivity).
    unfold in_int, int_min, int_max. simpl. lia.
  - transitivity
      (Returned
         (Mem.count {[ "kind" := CEq (VStr "z") ]} (Mem.docs Sample.ten),
          @None error)); [exact Hr | vm_compute; reflexivity].
Defined.

(** A count that fails in the store comes back as 0 with the error. *)
Lemma Count_store_failure_not_minus_one :
  exists n e,
    result Mem.collection (Sample.Count Live Sample.none_such) Sample.unreachable
    = Returned (n, Some e) /\ n <> -1.
Proof.
  exists 0, (OtherError "connection refused").
  split; [vm_compute; reflexivity | discriminate].
Qed.

(** ** Filters on the in-memory collection *)

Lemma matches_singleton (k : string) (c : cond) (d : Mem.document) :
  Mem.matches {[ k := c ]} d = Mem.holds c (Mem.field d k).
Proof.
  unfold Mem.matches.
  destruct (Mem.holds c (Mem.field d k)) eqn:Hh.
  - apply bool_decide_eq_true_2. by apply map_Forall_singleton.
  - apply bool_decide_eq_false_2. rewrite map_Forall_singleton. congruence.
Qed.

Lemma matches_id_in (ids : list value) (d : Mem.document) :
  Mem.matches {[ "_id" := CIn ids ]} d = bool_decide (Mem.d_id d ∈ ids).
Proof. by rewrite matches_singleton. Qed.

Lemma matches_by_id (id : value) (d : Mem.document) :
  Mem.matches (by_id id) d = bool_decide (Mem.d_id d = id).
Proof.
  unfold by_id. rewrite matches_singleton. simpl.
  change (Mem.field d "_id") with (Some (Mem.d_id d)).
  apply bool_decide_ext. split; congruence.
Qed.

Lemma count_id_in (ids : list value) (l : list Mem.document) :
  Mem.count {[ "_id" := CIn ids ]} l
  = len (filter (fun d => Mem.d_id d ∈ ids) l).
Proof.
  unfold Mem.count. f_equal. apply list_filter_iff. intros d.
  rewrite matches_id_in. apply bool_decide_eq_true.
Qed.

Lemma remaining_id_in (ids : list value) (l : list Mem.document) :
  Mem.remaining {[ "_id" := CIn ids ]} l
  = filter (fun d => Mem.d_id d ∉ ids) l.
Proof.
  unfold Mem.remaining. apply list_filter_iff. intros d.
  rewrite matches_id_in. rewrite bool_decide_eq_true. reflexivity.
Qed.

(** ** Clear *)

Section ClearProps.

Context `{!Translator} {S : Type} (d : driver S).

(** Once [Clear] has issued its bulk delete, it returns what
    [clear_result] makes of the answer. *)
Lemma Clear_after_delete (ctx : Context) (q : Query) (s : S)
    (f : bsonM) (r : option Z * option error) :
  ended_in_delete d (Handler.Clear ctx q) s = Some (f, r) ->
  result d (Handler.Clear ctx q) s = Returned (Handler.clear_result ctx r).
Proof.
  exec; intros Hlast; simplify_eq; reflexivity.
Qed.

Lemma Clear_window_mem (ctx : Context) (q : Query) (w : Window.t)
    (qry : bsonM) (l : list Mem.document) :
  QWindow q = Some w -> getQuery q = inl qry ->
  let opts := SetProjection (applyWindow (getSort q) (Some w)) {[ "_id" := 1 ]} in
  let ids := Mem.d_id <$> Mem.select qry opts l in
  result Mem.collection (Handler.Clear ctx q) (Mem.holding l)
  = Returned (int_of_int64 (len (filter (fun d => Mem.d_id d ∈ ids) l)), Err ctx)
  /\ Mem.docs (final Mem.collection (Handler.Clear ctx q) (Mem.holding l))
     = filter (fun d => Mem.d_id d ∉ ids) l.
Proof.
  intros Hw Hq opts ids. unfold_ops. rewrite Hq, Hw. cbn.
  fold opts. fold ids. rewrite count_id_in. split; [reflexivity|].
  apply (remaining_id_in ids l).
Qed.

(** C6. For a query with a window, [Clear] first reads with the
    translated filter and with the sort and the window of the query,
    projected on the identifier; it collects the identifiers of that
    read; it then deletes by membership in exactly this sequence, and
    every bulk delete it issues has this form. On the in-memory
    collection it therefore removes the documents whose identifier the
    windowed, sorted read returned, and no other, and returns their
    number. *)
Theorem Clear_window_deletes_selected (ctx : Context) (q : Query) (s : S)
    (w : Window.t) (qry : bsonM) :
  QWindow q = Some w -> getQuery q = inl qry ->
  let opts := SetProjection (applyWindow (getSort q) (Some w)) {[ "_id" := 1 ]} in
  (forall s1 cur s2 ids s3,
     respond d (Resolve ctx) s = (None, s1) ->
     respond d (Find ctx qry opts) s1 = ((Some cur, None), s2) ->
     respond d (SelectIDs ctx cur) s2 = ((ids, None), s3) ->
     calls d (Handler.Clear ctx q) s
     = [Resolve ctx; Find ctx qry opts; SelectIDs ctx cur;
        DeleteMany ctx {[ "_id" := CIn ids ]}])
  /\ (forall f, DeleteMany ctx f ∈ calls d (Handler.Clear ctx q) s ->
        exists ids, f = {[ "_id" := CIn ids ]})
  /\ (forall l,
        let ids := Mem.d_id <$> Mem.select qry opts l in
        result Mem.collection (Handler.Clear ctx q) (Mem.holding l)
        = Returned (int_of_int64 (len (filter (fun d => Mem.d_id d ∈ ids) l)),
                    Err ctx)
        /\ Mem.docs (final Mem.collection (Handler.Clear ctx q) (Mem.holding l))
           = filter (fun d => Mem.d_id d ∉ ids) l).
Proof.
  intros Hw Hq opts. split_and!.
  - intros s1 cur s2 ids s3 E1 E2 E3. unfold_ops. rewrite Hq, Hw. cbn.
    rewrite E1. cbn. fold opts. rewrite E2. cbn. rewrite E3. cbn.
    by destruct (respond d (DeleteMany ctx {[ "_id" := CIn ids ]}) s3).
  - intros f. unfold_ops. rewrite Hq, Hw.
    repeat (cbn; first [round_trip | case_step]); cbn;
      rewrite ?elem_of_cons, ?elem_of_nil; intros Hin;
      repeat destruct Hin as [Hin|Hin]; try discriminate; try done.
    injection Hin as ->. by eexists.
  - intros l. by apply Clear_window_mem.
Qed.

(** C7. When the last round trip of [Clear] is its bulk delete and the
    store answered with a count, [Clear] returns that count together
    with the error of the delete or, if the delete reported none, with
    the error of the context: a failed delete that removed documents and
    a delete answered while the context is done both give the count and
    an error. *)
Theorem Clear_count_with_error (ctx : Context) (q : Query) (s : S)
    (f : bsonM) (n : Z) (err : option error) :
  in_int n ->
  ended_in_delete d (Handler.Clear ctx q) s = Some (f, (Some n, err)) ->
  result d (Handler.Clear ctx q) s
  = Returned (n, match err with
                 | Some e => Some e
                 | None => Err ctx
                 end).
Proof.
  intros Hn Hlast. rewrite (Clear_after_delete _ _ _ _ _ Hlast).
  unfold Handler.clear_result, int_of_int64. by rewrite wrap_in_range.
Qed.

End ClearProps.

Lemma Clear_window_deletes_selected_witness :
  result Mem.collection
    (Sample.Clear Live (Sample.by_rank (Some (Window.mk 2 3)))) Sample.ten
  = Returned (3, None)
  /\ Mem.docs
       (final Mem.collection
          (Sample.Clear Live (Sample.by_rank (Some (Window.mk 2 3)))) Sample.ten)
     = Sample.doc <$> [1; 2; 3; 4; 5; 9; 10].
Proof.
  destruct (@Clear_window_deletes_selected Native.translator _ Mem.collection
              Live (Sample.by_rank (Some (Window.mk 2 3))) Sample.ten
              (Window.mk 2 3) {[ "kind" := CEq (VStr "a") ]} eq_refl)
    as (_ & _ & Hmem); [vm_compute; reflexivity|].
  destruct (Hmem (Mem.docs Sample.ten)) as [Hr Hd].
  split.
  - etrans; [exact Hr | vm_compute; reflexivity].
  - etrans; [exact Hd | vm_compute; reflexivity].
Defined.

(** The example of the specification: of 10 matching documents sorted by
    rank, the window of offset 2 and limit 3 holds those at positions 2
    to 4, which are the ones [Clear] removes. *)
Example Clear_positions_2_to_4 :
  let sorted := Mem.sort_docs [("rank", 1)] (Mem.docs Sample.ten) in
  let before := Mem.docs Sample.ten in
  let after :=
    Mem.docs (final Mem.collection
                (Sample.Clear Live (Sample.by_rank (Some (Window.mk 2 3))))
                Sample.ten) in
  Mem.d_id <$> sorted = VInt <$> [10; 9; 8; 7; 6; 5; 4; 3; 2; 1]
  /\ take 3 (drop 2 sorted) = Sample.doc <$> [8; 7; 6]
  /\ after = filter (fun x => x ∉ take 3 (drop 2 sorted)) before
  /\ length after = 7%nat.
Proof. vm_compute. split_and!; reflexivity. Qed.

Lemma Clear_count_with_error_witness :
  result (Sample.scripted Sample.partial_delete)
    (Sample.Clear Live (Sample.by_rank None)) tt
  = Returned (4, Some (WriteError 10334)).
Proof.
  apply (@Clear_count_with_error Native.translator _
           (Sample.scripted Sample.partial_delete) Live (Sample.by_rank None) tt
           {[ "kind" := CEq (VStr "a") ]} 4 (Some (WriteError 10334))).
  - unfold in_int, int_min, int_max. simpl. lia.
  - vm_compute. reflexivity.
Defined.

(** A bulk delete answered while the context is cancelled: the 10
    documents are removed and counted, and the cancellation is returned. *)
Example Clear_cancelled_keeps_count :
  result Mem.collection (Sample.Clear Cancelled (Sample.by_rank None)) Sample.ten
  = Returned (10, Some Canceled).
Proof. vm_compute. reflexivity. Qed.

(** ** Update and Delete *)

Lemma update_by_id_present (id : value) (m : mongoItem) (l : list Mem.document) :
  Mem.has_id id l = true -> is_Some (Mem.update_by_id id m l).
Proof.
  unfold Mem.has_id. rewrite bool_decide_eq_true.
  induction l as [|x l IH]; simpl.
  - intros Hin. by apply elem_of_nil in Hin.
  - intros Hin. destruct (decide (Mem.d_id x = id)); [by eexists|].
    apply elem_of_cons in Hin as [Hin|Hin]; [congruence|].
    destruct (IH Hin) as [l' ->]. by eexists.
Qed.

(** C1, where the handler departs from it. [Update] addresses its write
    by the identifier alone and never compares version tags: on the
    in-memory collection, when a document with the identifier exists,
    [Update] writes over it and returns no error, whatever the version
    tag of [original], so also for a stale one. *)
Theorem Update_ignores_version_tag (item original : Item)
    (l : list Mem.document) :
  ID item = ID original ->
  Mem.has_id (ID original) l = true ->
  exists l',
    Mem.update_by_id (ID original) (newMongoItem item) l = Some l'
    /\ result Mem.collection (Handler.Update Live item original) (Mem.holding l)
       = Returned None
    /\ Mem.docs (final Mem.collection (Handler.Update Live item original)
                   (Mem.holding l)) = l'.
Proof.
  intros Hid Hin.
  destruct (update_by_id_present _ (newMongoItem item) _ Hin) as [l' Hl'].
  exists l'. split; [exact Hl'|].
  unfold_ops. cbn.
  destruct (decide (ID item = ID original \/ ¬ Mem.has_id (ID original) l = true))
    as [_|Hn]; [|exfalso; apply Hn; by left].
  rewrite Hl'. cbn. by split.
Qed.

Lemma Update_ignores_version_tag_witness :
  result Mem.collection
    (Handler.Update Live (Sample.item 3 "v3") (Sample.item 3 "v0")) Sample.ten
  = Returned None.
Proof.
  destruct (Update_ignores_version_tag (Sample.item 3 "v3") (Sample.item 3 "v0")
              (Mem.docs Sample.ten) eq_refl) as (l' & _ & Hr & _).
  - vm_compute. reflexivity.
  - exact Hr.
Defined.

(** The stored document 3 carries the tag v1. An [Update] from the
    stale tag v0 replaces it. A [Delete] with the same stale tag sends
    the version with its filter, so the store removes nothing; the
    driver answers such a delete with a nil error, and [Delete] returns
    it. A [Delete] with the current tag removes the document. *)
Example stale_tag_outcomes :
  Mem.d_etag <$>
    Mem.docs (final Mem.collection
                (Handler.Update Live (Sample.item 3 "v3") (Sample.item 3 "v0"))
                Sample.ten) !! 2%nat
  = Some (Some "v3")
  /\ result Mem.collection (Handler.Delete Live (Sample.item 3 "v0")) Sample.ten
     = Returned None
  /\ final Mem.collection (Handler.Delete Live (Sample.item 3 "v0")) Sample.ten
     = Sample.ten
  /\ result Mem.collection (Handler.Delete Live (Sample.item 3 "v1")) Sample.ten
     = Returned None
  /\ length (Mem.docs (final Mem.collection
                         (Handler.Delete Live (Sample.item 3 "v1")) Sample.ten))
     = 9%nat.
Proof. vm_compute. split_and!; reflexivity. Qed.

Lemma delete_one_none (f : bsonM) (l : list Mem.document) :
  Forall (fun d => Mem.matches f d = false) l -> Mem.delete_one f l = None.
Proof.
  induction 1 as [|x l Hx _ IH]; simpl; [reflexivity|].
  by rewrite Hx, IH.
Qed.

Lemma count_by_id_positive (id : value) (l : list Mem.document) :
  0 < Mem.count (by_id id) l <-> Mem.has_id id l = true.
Proof.
  unfold Mem.count, Mem.has_id, len. rewrite bool_decide_eq_true.
  induction l as [|x l IH]; simpl.
  - rewrite elem_of_nil. split; [lia | tauto].
  - rewrite filter_cons, elem_of_cons, matches_by_id.
    destruct (decide (bool_decide (Mem.d_id x = id) = true)) as [Hx|Hx].
    + apply bool_decide_eq_true in Hx. simpl. split; [by left | lia].
    + rewrite bool_decide_eq_true in Hx. rewrite IH.
      split; [by right | intros [Heq|Hin]; [congruence | exact Hin]].
Qed.

(** [Delete] carries the version condition into the store. When no
    stored document matches identifier and version, be it that the tag
    is stale or that the identifier is absent, the store removes nothing
    and answers a nil error, as the driver does; [Delete] then makes no
    read, leaves the collection as it is and returns nil: neither a
    conflict nor not-found is reported. *)
Theorem Delete_unmatched_returns_nil (ctx : Context) (item : Item)
    (l : list Mem.document) :
  Forall (fun d => Mem.matches (selector (ID item) (ETag item)) d = false) l ->
  result Mem.collection (Handler.Delete ctx item) (Mem.holding l) = Returned None
  /\ final Mem.collection (Handler.Delete ctx item) (Mem.holding l)
     = Mem.holding l
  /\ calls Mem.collection (Handler.Delete ctx item) (Mem.holding l)
     = [Resolve ctx; DeleteOne ctx (selector (ID item) (ETag item))].
Proof.
  intros Hstale. unfold_ops. cbn.
  rewrite (delete_one_none _ _ Hstale). cbn.
  by rewrite decide_False.
Qed.

Section GuardProps.

Context {S : Type} (d : driver S).

(** C2, as the handler has it. Once the collection is resolved, [Delete]
    issues its delete with the selector as filter, which holds the
    identifier and the version condition: absence of the version field
    for a tag that starts with ["p-"], equality with the tag otherwise.
    When the write answers that no document matched, [Delete] and
    [Update] alike make one more round trip, the read by the identifier
    alone. *)
Theorem Delete_filter_carries_version (ctx : Context) (item : Item) (s s1 : S) :
  respond d (Resolve ctx) s = (None, s1) ->
  let sel := selector (ID item) (ETag item) in
  calls d (Handler.Delete ctx item) s !! 1%nat = Some (DeleteOne ctx sel)
  /\ sel !! "_id" = Some (CEq (ID item))
  /\ sel !! "_etag"
     = Some (if String.prefix "p-" (ETag item)
             then CExists false else CEq (VStr (ETag item)))
  /\ (forall s2,
        respond d (DeleteOne ctx sel) s1 = (Some ErrNoDocuments, s2) ->
        calls d (Handler.Delete ctx item) s
        = [Resolve ctx; DeleteOne ctx sel; FindOne ctx (by_id (ID item))])
  /\ (forall new s2,
        respond d (UpdateByID ctx (ID item) (SetDoc (newMongoItem new))) s1
        = (Some ErrNoDocuments, s2) ->
        calls d (Handler.Update ctx new item) s !! 2%nat
        = Some (FindOne ctx (by_id (ID item)))).
Proof.
  intros E1 sel. split_and!.
  - unfold_ops. cbn. rewrite E1. cbn. fold sel.
    destruct (respond d (DeleteOne ctx sel) s1) as [a s2].
    by exec.
  - unfold sel, selector, by_id. by destruct (String.prefix "p-" (ETag item)).
  - unfold sel, selector, by_id. by destruct (String.prefix "p-" (ETag item)).
  - intros s2 E2. unfold_ops. cbn. rewrite E1. cbn. fold sel. rewrite E2. cbn.
    rewrite decide_True by done. by exec.
  - intros new s2 E2. unfold_ops. cbn. rewrite E1. cbn. rewrite E2. cbn.
    rewrite decide_True by done. by exec.
Qed.

(** Where the context is consulted. With a context that is done,
    whose error is a cancellation: [Insert] returns that error once the
    collection is resolved, whatever the store answers; [Clear] returns
    it with its count when its bulk delete reports no error of its own;
    [Update] and [Delete] return it when the write matched no document
    and the read by identifier does not report a missing document.
    Everywhere else the context is not consulted: [Update] and [Delete]
    return the answer of the write itself, [Count] the count and the
    error of the store, and [Find] its list with the error of the read,
    so that a success of the store is returned as a success. *)
Theorem cancellation_where_checked (ctx : Context) (e : error) :
  Err ctx = Some e ->
  cancellation e
  /\ (forall items s s1,
        respond d (Resolve ctx) s = (None, s1) ->
        result d (Handler.Insert ctx items) s = Returned (Some e))
  /\ (forall `{!Translator} q s f info,
        ended_in_delete d (Handler.Clear ctx q) s = Some (f, (info, None)) ->
        exists n, result d (Handler.Clear ctx q) s = Returned (n, Some e))
  /\ (forall item original s s1 s2 r s3,
        respond d (Resolve ctx) s = (None, s1) ->
        respond d (UpdateByID ctx (ID original) (SetDoc (newMongoItem item))) s1
        = (Some ErrNoDocuments, s2) ->
        respond d (FindOne ctx (by_id (ID original))) s2 = (r, s3) ->
        r <> Some ErrNoDocuments ->
        result d (Handler.Update ctx item original) s = Returned (Some e))
  /\ (forall item s s1 s2 r s3,
        respond d (Resolve ctx) s = (None, s1) ->
        respond d (DeleteOne ctx (selector (ID item) (ETag item))) s1
        = (Some ErrNoDocuments, s2) ->
        respond d (FindOne ctx (by_id (ID item))) s2 = (r, s3) ->
        r <> Some ErrNoDocuments ->
        result d (Handler.Delete ctx item) s = Returned (Some e))
  /\ (forall item original s s1 r s2,
        respond d (Resolve ctx) s = (None, s1) ->
        respond d (UpdateByID ctx (ID original) (SetDoc (newMongoItem item))) s1
        = (r, s2) ->
        r <> Some ErrNoDocuments ->
        result d (Handler.Update ctx item original) s = Returned r)
  /\ (forall item s s1 r s2,
        respond d (Resolve ctx) s = (None, s1) ->
        respond d (DeleteOne ctx (selector (ID item) (ETag item))) s1 = (r, s2) ->
        r <> Some ErrNoDocuments ->
        result d (Handler.Delete ctx item) s = Returned r)
  /\ (forall `{!Translator} q qry s s1 cnt err s2,
        getQuery q = inl qry ->
        respond d (Resolve ctx) s = (None, s1) ->
        respond d (CountDocuments ctx qry) s1 = ((cnt, err), s2) ->
        result d (Handler.Count ctx q) s = Returned (int_of_int64 cnt, err))
  /\ (forall `{!Translator} q qry s s1 cur err s2 got s3 s4,
        QWindow q = None ->
        getQuery q = inl qry ->
        respond d (Resolve ctx) s = (None, s1) ->
        respond d (Find ctx qry (applyWindow (getSort q) None)) s1
        = ((Some cur, err), s2) ->
        respond d (CursorAll ctx cur) s2 = (got, s3) ->
        respond d (CursorClose ctx cur) s3 = (None, s4) ->
        exists l, result d (Handler.Find ctx q) s = Returned (Some l, err)).
Proof.
  intros He. split_and!.
  - destruct ctx; simplify_eq/=; [by left | by right].
  - intros items s s1 E1. unfold_ops. cbn. rewrite E1. cbn.
    destruct (respond d (InsertMany ctx (newMongoItem <$> items)) s1) as [a s2].
    cbn. by rewrite He.
  - intros T q s f info Hlast.
    rewrite (Clear_after_delete d _ _ _ _ _ Hlast).
    unfold Handler.clear_result. rewrite He. destruct info; by eexists.
  - intros item original s s1 s2 r s3 E1 E2 E3 Hr.
    unfold_ops. cbn. rewrite E1. cbn. rewrite E2. cbn.
    rewrite decide_True by done. cbn. rewrite E3. cbn.
    rewrite decide_False by done.
    rewrite He. by rewrite decide_True.
  - intros item s s1 s2 r s3 E1 E2 E3 Hr.
    unfold_ops. cbn. rewrite E1. cbn. rewrite E2. cbn.
    rewrite decide_True by done. cbn. rewrite E3. cbn.
    rewrite decide_False by done.
    rewrite He. by rewrite decide_True.
  - intros item original s s1 r s2 E1 E2 Hr.
    unfold_ops. cbn. rewrite E1. cbn. rewrite E2. cbn.
    by rewrite decide_False.
  - intros item s s1 r s2 E1 E2 Hr.
    unfold_ops. cbn. rewrite E1. cbn. rewrite E2. cbn.
    by rewrite decide_False.
  - intros T q qry s s1 cnt err s2 Hq E1 E2.
    unfold_ops. rewrite Hq. cbn. rewrite E1. cbn. by rewrite E2.
  - intros T q qry s s1 cur err s2 got s3 s4 Hw Hq E1 E2 E3 E4.
    unfold_ops. rewrite Hw, Hq. cbn. rewrite E1. cbn. rewrite E2. cbn.
    rewrite E3. destruct got as [items aerr]. cbn. rewrite E4. cbn.
    by eexists.
Qed.

(** C3, where the handler departs from it. With a context that is done
    when the store has answered, a success of the store is returned as
    a success by [Update], [Delete], [Count] and [Find], on every path
    of [Find]: none of them looks at the error of the context after the
    store call, as [Insert] and [Clear] do, so the cancellation is
    masked. *)
Theorem store_success_masks_cancellation (ctx : Context) (e : error) :
  Err ctx = Some e ->
  (forall item original s s1 s2,
     respond d (Resolve ctx) s = (None, s1) ->
     respond d (UpdateByID ctx (ID original) (SetDoc (newMongoItem item))) s1
     = (None, s2) ->
     result d (Handler.Update ctx item original) s = Returned None)
  /\ (forall item s s1 s2,
        respond d (Resolve ctx) s = (None, s1) ->
        respond d (DeleteOne ctx (selector (ID item) (ETag item))) s1
        = (None, s2) ->
        result d (Handler.Delete ctx item) s = Returned None)
  /\ (forall `{!Translator} q qry s s1 cnt s2,
        getQuery q = inl qry ->
        respond d (Resolve ctx) s = (None, s1) ->
        respond d (CountDocuments ctx qry) s1 = ((cnt, None), s2) ->
        result d (Handler.Count ctx q) s = Returned (int_of_int64 cnt, None)
        /\ forall w, QWindow q = Some w -> Window.Limit w = 0 ->
             result d (Handler.Find ctx q) s
             = Returned (Some (ItemList.mk (int_of_int64 cnt) 0 []), None))
  /\ (forall `{!Translator} q qry s s1 cur s2 got aerr s3 s4,
        (forall w, QWindow q = Some w -> Window.Limit w <> 0) ->
        getQuery q = inl qry ->
        respond d (Resolve ctx) s = (None, s1) ->
        respond d (Find ctx qry (applyWindow (getSort q) (QWindow q))) s1
        = ((Some cur, None), s2) ->
        respond d (CursorAll ctx cur) s2 = ((got, aerr), s3) ->
        respond d (CursorClose ctx cur) s3 = (None, s4) ->
        exists l,
          result d (Handler.Find ctx q) s = Returned (Some l, None)
          /\ ItemList.Items l = newItem <$> got).
Proof.
  intros He. split_and!.
  - intros item original s s1 s2 E1 E2.
    unfold_ops. cbn. rewrite E1. cbn. rewrite E2. cbn.
    by rewrite decide_False.
  - intros item s s1 s2 E1 E2.
    unfold_ops. cbn. rewrite E1. cbn. rewrite E2. cbn.
    by rewrite decide_False.
  - intros T q qry s s1 cnt s2 Hq E1 E2. split.
    + unfold_ops. rewrite Hq. cbn. rewrite E1. cbn. by rewrite E2.
    + intros w Hw Hl. unfold_ops. rewrite Hw, Hq.
      rewrite decide_True by done. cbn. rewrite E1. cbn. rewrite E2. cbn.
      by rewrite Hl.
  - intros T q qry s s1 cur s2 got aerr s3 s4 Hlim Hq E1 E2 E3 E4.
    unfold_ops. rewrite Hq.
    destruct (QWindow q) as [w|] eqn:Hw.
    + destruct (decide (Window.Limit w = 0)) as [Hz|_];
        [by destruct (Hlim w eq_refl)|].
      cbn. rewrite E1. cbn. rewrite E2. cbn. rewrite E3. cbn. rewrite E4. cbn.
      by eexists.
    + cbn. rewrite E1. cbn. rewrite E2. cbn. rewrite E3. cbn. rewrite E4. cbn.
      by eexists.
Qed.

End GuardProps.

Lemma Delete_filter_carries_version_witness :
  calls (Sample.scripted Scenario.reports_stale)
    (Handler.Delete Live (Sample.item 3 "v0")) tt
  = [Resolve Live;
     DeleteOne Live (selector (VInt 3) "v0");
     FindOne Live (by_id (VInt 3))].
Proof.
  destruct (Delete_filter_carries_version (Sample.scripted Scenario.reports_stale)
              Live (Sample.item 3 "v0") tt tt eq_refl)
    as (_ & _ & _ & Hcalls & _).
  apply (Hcalls tt). reflexivity.
Defined.

(** The delete that [Delete] issues is not filtered by the identifier
    alone: its filter has a condition on the version field. *)
Lemma Delete_filter_not_identifier_only :
  exists f,
    calls Mem.collection (Handler.Delete Live (Sample.item 3 "v1")) Sample.ten
      !! 1%nat = Some (DeleteOne Live f)
    /\ f <> by_id (VInt 3).
Proof.
  exists (selector (VInt 3) "v1"). split; [vm_compute; reflexivity|].
  intros Heq. apply (f_equal (fun m : bsonM => m !! "_etag")) in Heq.
  vm_compute in Heq. discriminate.
Qed.

Lemma cancellation_where_checked_witness :
  result Mem.collection (Handler.Insert Cancelled [Sample.item 30 "v1"]) Sample.ten
  = Returned (Some Canceled).
Proof.
  destruct (cancellation_where_checked Mem.collection Cancelled Canceled eq_refl)
    as (_ & Hinsert & _).
  apply (Hinsert [Sample.item 30 "v1"] Sample.ten Sample.ten).
  vm_compute. reflexivity.
Defined.

Lemma store_success_masks_cancellation_witness :
  result Mem.collection
    (Handler.Update Cancelled (Sample.item 3 "v2") (Sample.item 3 "v1"))
    Sample.ten = Returned None.
Proof.
  destruct (store_success_masks_cancellation Mem.collection Cancelled Canceled
              eq_refl) as (Hupdate & _).
  eapply (Hupdate (Sample.item 3 "v2") (Sample.item 3 "v1") Sample.ten Sample.ten);
    reflexivity.
Defined.

(** With a context that is cancelled while the answers of the store are
    on their way, [Update], [Delete], [Count] and [Find] return the
    success of the store and no cancellation. *)
Lemma cancelled_context_success_returned :
  Err Cancelled = Some Canceled
  /\ result Mem.collection
       (Handler.Update Cancelled (Sample.item 3 "v2") (Sample.item 3 "v1"))
       Sample.ten = Returned None
  /\ result Mem.collection (Handler.Delete Cancelled (Sample.item 3 "v1"))
       Sample.ten = Returned None
  /\ result Mem.collection (Sample.Count Cancelled (Sample.by_rank None))
       Sample.ten = Returned (10, None)
  /\ snd <$> (match result Mem.collection
                      (Sample.Find Cancelled (Sample.by_rank None)) Sample.ten with
              | Returned r => Some r
              | Panicked => None
              end) = Some None.
Proof. vm_compute. split_and!; reflexivity. Qed.

(** * Further properties of the handler *)

(** ** Early exits *)

Section EarlyExit.

Context `{!Translator} {S : Type} (d : driver S).

(** When the resolution of the collection fails, every operation returns
    that error, with the failure value of its result, and makes no other
    round trip: the store is not called. *)
Theorem resolve_failure_stops (ctx : Context) (e : error) (s s1 : S) :
  respond d (Resolve ctx) s = (Some e, s1) ->
  let only := [mkEntry (Resolve ctx) (Some e)] in
  (forall items,
     run d (Handler.Insert ctx items) s = (Returned (Some e), s1, only))
  /\ (forall item original,
        run d (Handler.Update ctx item original) s = (Returned (Some e), s1, only))
  /\ (forall item,
        run d (Handler.Delete ctx item) s = (Returned (Some e), s1, only))
  /\ (forall q qry, getQuery q = inl qry ->
        run d (Handler.Clear ctx q) s = (Returned (0, Some e), s1, only)
        /\ run d (Handler.Count ctx q) s = (Returned (-1, Some e), s1, only)
        /\ run d (Handler.Find ctx q) s = (Returned (None, Some e), s1, only)).
Proof.
  intros E1 only. split_and!.
  - intros items. unfold_ops. cbn. by rewrite E1.
  - intros item original. unfold_ops. cbn. by rewrite E1.
  - intros item. unfold_ops. cbn. by rewrite E1.
  - intros q qry Hq. split_and!; unfold_ops; rewrite Hq; cbn.
    + by rewrite E1.
    + by rewrite E1.
    + destruct (QWindow q) as [w|]; [destruct (decide (Window.Limit w = 0))|];
        cbn; by rewrite E1.
Qed.

(** A query the translator refuses is answered without any round trip:
    [Clear] returns 0, [Count] -1 and [Find] no list, each with the
    error of the translation, and the state of the store is untouched. *)
Theorem translation_failure_stops (ctx : Context) (q : Query) (e : error) (s : S) :
  getQuery q = inr e ->
  run d (Handler.Clear ctx q) s = (Returned (0, Some e), s, [])
  /\ run d (Handler.Count ctx q) s = (Returned (-1, Some e), s, [])
  /\ run d (Handler.Find ctx q) s = (Returned (None, Some e), s, []).
Proof.
  intros Hq. split_and!; unfold_ops; rewrite Hq; cbn; try reflexivity.
  destruct (QWindow q) as [w|]; [destruct (decide (Window.Limit w = 0))|];
    reflexivity.
Qed.

End EarlyExit.

(** ** Insert *)

Section InsertProps.

Context {S : Type} (d : driver S).

(** Once the collection is resolved, [Insert] makes one round trip, the
    insertion of the stored forms of the items, in order and none with
    an ["id"] entry in its payload. It returns the error of the context
    if the context is done; otherwise a conflict if the store reported a
    duplicate key, and else the answer of the store as it is. *)
Theorem Insert_outcome (ctx : Context) (items : list Item) (s s1 s2 : S)
    (a : option error) :
  respond d (Resolve ctx) s = (None, s1) ->
  respond d (InsertMany ctx (newMongoItem <$> items)) s1 = (a, s2) ->
  calls d (Handler.Insert ctx items) s
  = [Resolve ctx; InsertMany ctx (newMongoItem <$> items)]
  /\ final d (Handler.Insert ctx items) s = s2
  /\ result d (Handler.Insert ctx items) s
     = Returned (match Err ctx with
                 | Some e => Some e
                 | None => if IsDuplicateKeyError a then Some ErrConflict else a
                 end)
  /\ length (newMongoItem <$> items) = length items
  /\ Forall (fun m => exists p, mPayload m = Some p /\ p !! "id" = None)
       (newMongoItem <$> items).
Proof.
  intros E1 E2. split_and!.
  - unfold_ops. cbn. rewrite E1. cbn. rewrite E2. cbn.
    by destruct (Err ctx).
  - unfold_ops. cbn. rewrite E1. cbn. rewrite E2. cbn.
    by destruct (Err ctx).
  - unfold_ops. cbn. rewrite E1. cbn. rewrite E2. cbn.
    by destruct (Err ctx).
  - apply length_fmap.
  - apply Forall_fmap, Forall_forall. intros i _. unfold compose.
    rewrite newMongoItem_payload. eexists. split; [reflexivity|].
    apply lookup_delete_eq.
Qed.

(** The handler of [NewHandler] resolves the collection whatever the
    context: also with a context that is done, [Insert], [Update] and
    [Delete] go on to their write and [Count] to its count. *)
Theorem NewHandler_reaches_store (ctx : Context) (s : S) :
  (forall items,
     calls (NewHandler d) (Handler.Insert ctx items) s
     = [Resolve ctx; InsertMany ctx (newMongoItem <$> items)])
  /\ (forall item original,
        take 2 (calls (NewHandler d) (Handler.Update ctx item original) s)
        = [Resolve ctx;
           UpdateByID ctx (ID original) (SetDoc (newMongoItem item))])
  /\ (forall item,
        take 2 (calls (NewHandler d) (Handler.Delete ctx item) s)
        = [Resolve ctx; DeleteOne ctx (selector (ID item) (ETag item))])
  /\ (forall `{!Translator} q qry, getQuery q = inl qry ->
        calls (NewHandler d) (Handler.Count ctx q) s
        = [Resolve ctx; CountDocuments ctx qry]).
Proof.
  split_and!.
  - intros items. by exec.
  - intros item original. by exec.
  - intros item. by exec.
  - intros T q qry Hq. unfold_ops. rewrite Hq. by exec.
Qed.

End InsertProps.

(** ** The disambiguating read *)

Section Disambiguation.

Context {S : Type} (d : driver S).

(** What the write of [Update] or [Delete] answered when it matched no
    document is settled by the read by identifier: a read that reports
    no document gives not-found, also when the context is done; any
    other answer of the read, a found document or an error of its own,
    gives the error of the context if there is one and a conflict
    otherwise. The operation ends there, after three round trips. *)
Theorem guard_disambiguation (ctx : Context) (s s1 s2 s3 : S)
    (r : option error) :
  let verdict :=
    if decide (r = Some ErrNoDocuments) then ErrNotFound
    else default ErrConflict (Err ctx) in
  (forall item original,
     respond d (Resolve ctx) s = (None, s1) ->
     respond d (UpdateByID ctx (ID original) (SetDoc (newMongoItem item))) s1
     = (Some ErrNoDocuments, s2) ->
     respond d (FindOne ctx (by_id (ID original))) s2 = (r, s3) ->
     result d (Handler.Update ctx item original) s = Returned (Some verdict)
     /\ final d (Handler.Update ctx item original) s = s3
     /\ calls d (Handler.Update ctx item original) s
        = [Resolve ctx;
           UpdateByID ctx (ID original) (SetDoc (newMongoItem item));
           FindOne ctx (by_id (ID original))])
  /\ (forall item,
        respond d (Resolve ctx) s = (None, s1) ->
        respond d (DeleteOne ctx (selector (ID item) (ETag item))) s1
        = (Some ErrNoDocuments, s2) ->
        respond d (FindOne ctx (by_id (ID item))) s2 = (r, s3) ->
        result d (Handler.Delete ctx item) s = Returned (Some verdict)
        /\ final d (Handler.Delete ctx item) s = s3
        /\ calls d (Handler.Delete ctx item) s
           = [Resolve ctx;
              DeleteOne ctx (selector (ID item) (ETag item));
              FindOne ctx (by_id (ID item))]).
Proof.
  intros verdict. split.
  - intros item original E1 E2 E3. unfold_ops. cbn. rewrite E1. cbn.
    rewrite E2. cbn. rewrite decide_True by done. cbn. rewrite E3. cbn.
    subst verdict. destruct (decide (r = Some ErrNoDocuments)); [done|].
    by destruct ctx.
  - intros item E1 E2 E3. unfold_ops. cbn. rewrite E1. cbn.
    rewrite E2. cbn. rewrite decide_True by done. cbn. rewrite E3. cbn.
    subst verdict. destruct (decide (r = Some ErrNoDocuments)); [done|].
    by destruct ctx.
Qed.

End Disambiguation.

(** ** Clear, the other paths *)

Section ClearPaths.

Context `{!Translator} {S : Type} (d : driver S).

(** Without a window [Clear] makes no read: after the resolution its one
    round trip is the bulk delete on the translated filter itself. A nil
    result of the delete counts as 0, and a nil error is replaced by the
    error of the context. *)
Theorem Clear_without_window (ctx : Context) (q : Query) (qry : bsonM)
    (s s1 s2 : S) (info : option Z) (err : option error) :
  QWindow q = None -> getQuery q = inl qry ->
  respond d (Resolve ctx) s = (None, s1) ->
  respond d (DeleteMany ctx qry) s1 = ((info, err), s2) ->
  calls d (Handler.Clear ctx q) s = [Resolve ctx; DeleteMany ctx qry]
  /\ final d (Handler.Clear ctx q) s = s2
  /\ result d (Handler.Clear ctx q) s
     = Returned (match info with
                 | Some n => int_of_int64 n
                 | None => 0
                 end,
                 match err with
                 | Some e => Some e
                 | None => Err ctx
                 end).
Proof.
  intros Hw Hq E1 E2. unfold_ops. rewrite Hq, Hw. cbn. rewrite E1. cbn.
  rewrite E2. cbn. by destruct info.
Qed.

(** With a window, a failure of the read or of the collection of the
    identifiers ends [Clear] with 0 and that error: no delete is
    issued. *)
Theorem Clear_window_failure_deletes_nothing (ctx : Context) (q : Query)
    (w : Window.t) (qry : bsonM) (s s1 s2 : S) (e : error) :
  QWindow q = Some w -> getQuery q = inl qry ->
  respond d (Resolve ctx) s = (None, s1) ->
  let opts := SetProjection (applyWindow (getSort q) (Some w)) {[ "_id" := 1 ]} in
  (forall request,
     respond d (Find ctx qry opts) s1 = ((request, Some e), s2) ->
     result d (Handler.Clear ctx q) s = Returned (0, Some e)
     /\ calls d (Handler.Clear ctx q) s = [Resolve ctx; Find ctx qry opts])
  /\ (forall cur ids s3,
        respond d (Find ctx qry opts) s1 = ((Some cur, None), s2) ->
        respond d (SelectIDs ctx cur) s2 = ((ids, Some e), s3) ->
        result d (Handler.Clear ctx q) s = Returned (0, Some e)
        /\ calls d (Handler.Clear ctx q) s
           = [Resolve ctx; Find ctx qry opts; SelectIDs ctx cur]).
Proof.
  intros Hw Hq E1 opts. split.
  - intros request E2. unfold_ops. rewrite Hq, Hw. cbn. rewrite E1. cbn.
    fold opts. rewrite E2. by cbn.
  - intros cur ids s3 E2 E3. unfold_ops. rewrite Hq, Hw. cbn. rewrite E1. cbn.
    fold opts. rewrite E2. cbn. rewrite E3. by cbn.
Qed.

End ClearPaths.

(** ** Find, the read path *)

Lemma newItem_well_formed (m : mongoItem) :
  ETag (newItem m) ≠ EmptyString
  /\ exists p, Payload (newItem m) = Some p /\ p !! "id" = Some (ID (newItem m)).
Proof.
  split.
  - rewrite newItem_tag. destruct (decide (mETag m = EmptyString)); [|done].
    discriminate.
  - rewrite newItem_payload. eexists. split; [reflexivity|].
    rewrite lookup_insert_eq. f_equal.
    unfold newItem. by destruct (decide _).
Qed.

Section FindPaths.

Context `{!Translator} {S : Type} (d : driver S).

(** On the read path, where the window if any has a limit other than 0,
    the outcome of [Find] is fixed by the answers of the read, of
    [mq.All] and of the close: the items are the translations of the
    decoded documents, in the order of the cursor; an error reported by
    [mq.All] is dropped; an error of the close replaces the list; with
    no such error the list is returned together with the error of the
    read. *)
Theorem Find_read_path (ctx : Context) (q : Query) (qry : bsonM)
    (s s1 s2 s3 s4 : S) (cur : cursor) (err aerr cerr : option error)
    (got : list mongoItem) :
  (forall w, QWindow q = Some w -> Window.Limit w <> 0) ->
  getQuery q = inl qry ->
  respond d (Resolve ctx) s = (None, s1) ->
  respond d (Find ctx qry (applyWindow (getSort q) (QWindow q))) s1
  = ((Some cur, err), s2) ->
  respond d (CursorAll ctx cur) s2 = ((got, aerr), s3) ->
  respond d (CursorClose ctx cur) s3 = (cerr, s4) ->
  let limit := match QWindow q with
               | Some w => Window.Limit w
               | None => -1
               end in
  result d (Handler.Find ctx q) s
  = Returned
      (match cerr with
       | Some e => (None, Some e)
       | None =>
           (Some (ItemList.mk
                    (Handler.deduce_total (QWindow q) limit (len got))
                    limit (newItem <$> got)),
            err)
       end)
  /\ calls d (Handler.Find ctx q) s
     = [Resolve ctx; Find ctx qry (applyWindow (getSort q) (QWindow q));
        CursorAll ctx cur; CursorClose ctx cur].
Proof.
  intros Hlim Hq E1 E2 E3 E4 limit.
  assert (len (newItem <$> got) = len got) as Hlen.
  { unfold len. by rewrite length_fmap. }
  unfold_ops. rewrite Hq.
  destruct (QWindow q) as [w|] eqn:Hw.
  - destruct (decide (Window.Limit w = 0)) as [Hz|_];
      [by destruct (Hlim w eq_refl)|].
    cbn. rewrite E1. cbn. rewrite E2. cbn. rewrite E3. cbn. rewrite E4. cbn.
    rewrite Hlen. by destruct cerr.
  - cbn. rewrite E1. cbn. rewrite E2. cbn. rewrite E3. cbn. rewrite E4. cbn.
    rewrite Hlen. by destruct cerr.
Qed.

(** [Find] uses the cursor of the read without looking at the error
    first: when the read gives a nil cursor, as the driver does together
    with an error, the call panics and returns nothing. *)
Theorem Find_nil_cursor_panics (ctx : Context) (q : Query) (qry : bsonM)
    (s s1 s2 : S) (err : option error) :
  (forall w, QWindow q = Some w -> Window.Limit w <> 0) ->
  getQuery q = inl qry ->
  respond d (Resolve ctx) s = (None, s1) ->
  respond d (Find ctx qry (applyWindow (getSort q) (QWindow q))) s1
  = ((None, err), s2) ->
  result d (Handler.Find ctx q) s = Panicked.
Proof.
  intros Hlim Hq E1 E2. unfold_ops. rewrite Hq.
  destruct (QWindow q) as [w|] eqn:Hw.
  - destruct (decide (Window.Limit w = 0)) as [Hz|_];
      [by destruct (Hlim w eq_refl)|].
    cbn. rewrite E1. cbn. rewrite E2. by cbn.
  - cbn. rewrite E1. cbn. rewrite E2. by cbn.
Qed.

(** Every item of a list that [Find] returns has a version tag that is
    not empty and carries its identifier under ["id"] in a payload that
    is not nil. *)
Theorem Find_items_well_formed (ctx : Context) (q : Query) (s : S)
    (l : ItemList.t) (e : option error) :
  result d (Handler.Find ctx q) s = Returned (Some l, e) ->
  Forall (fun it => ETag it ≠ EmptyString
                    /\ exists p, Payload it = Some p /\ p !! "id" = Some (ID it))
    (ItemList.Items l).
Proof.
  exec; intros Hr; simplify_eq; simpl; try by constructor.
  all: apply Forall_fmap, Forall_forall; intros m _; apply newItem_well_formed.
Qed.

(** A window whose limit is negative is read like no limit at all: the
    total is always deduced from the page, the offset plus the number of
    items behind a positive offset that returned some, -1 behind one
    that returned none, and the number of items otherwise. A total that
    is known is never below the number of items returned, provided the
    sum fits in an [int]. *)
Theorem Find_total_edges (ctx : Context) (q : Query) (s : S)
    (l : ItemList.t) (e : option error) :
  result d (Handler.Find ctx q) s = Returned (Some l, e) ->
  (forall w, QWindow q = Some w -> Window.Limit w <> 0) ->
  let n := len (ItemList.Items l) in
  (forall w, QWindow q = Some w -> Window.Limit w < 0 ->
     ItemList.Total l =
       if bool_decide (Window.Offset w > 0)
       then if bool_decide (n > 0) then int_add (Window.Offset w) n else -1
       else n)
  /\ ((forall w, QWindow q = Some w -> in_int (Window.Offset w + n)) ->
      ItemList.Total l = -1 \/ n <= ItemList.Total l).
Proof.
  intros Hr Hlim n.
  pose proof (Find_read_total d ctx q s l e Hr Hlim) as Ht. fold n in Ht.
  pose proof (len_nonneg (ItemList.Items l)) as Hn. fold n in Hn.
  split.
  - intros w Hw Hneg. rewrite Ht, Hw. unfold Handler.deduce_total.
    by rewrite bool_decide_eq_true_2 by lia.
  - intros Hfit. rewrite Ht. unfold Handler.deduce_total.
    destruct (QWindow q) as [w|] eqn:Hw.
    + specialize (Hfit w eq_refl).
      repeat case_bool_decide; try lia; try (right; lia).
      right. rewrite int_add_exact by done. lia.
    + repeat case_bool_decide; lia.
Qed.

End FindPaths.

(** ** The operations on the in-memory collection *)

Lemma has_id_app (id : value) (l1 l2 : list Mem.document) :
  Mem.has_id id (l1 ++ l2)%list = Mem.has_id id l1 || Mem.has_id id l2.
Proof.
  unfold Mem.has_id. rewrite fmap_app.
  apply eq_true_iff_eq. rewrite orb_true_iff, !bool_decide_eq_true.
  apply elem_of_app.
Qed.

Lemma insert_many_fresh (ms : list mongoItem) (l : list Mem.document) :
  NoDup (mID <$> ms) ->
  Forall (fun m => Mem.has_id (mID m) l = false) ms ->
  Mem.insert_many ms l = (None, (l ++ (Mem.encode <$> ms))%list).
Proof.
  revert l. induction ms as [|m ms IH]; intros l Hnd Hfresh; simpl.
  - by rewrite app_nil_r.
  - apply NoDup_cons in Hnd as [Hm Hnd].
    apply Forall_cons in Hfresh as [Hml Hfresh].
    rewrite Hml, IH, <- app_assoc; [done | done |].
    apply Forall_forall. intros m' Hm'.
    rewrite has_id_app, (proj1 (Forall_forall _ _) Hfresh m' Hm'). simpl.
    unfold Mem.has_id. apply bool_decide_eq_false. simpl.
    rewrite list_elem_of_singleton. intros Heq. apply Hm.
    change (Mem.d_id (Mem.encode m)) with (mID m) in Heq.
    rewrite <- Heq. by apply list_elem_of_fmap_2.
Qed.

(** A batch of at least one item, with distinct identifiers none of
    which is in the collection yet, is stored whole, in order, behind
    the documents already there. [Insert] returns nil, or the error of
    the context when the context is done by the time the store has
    answered: a cancellation it returns does not mean that nothing was
    written. *)
Theorem Insert_stores_batch (ctx : Context) (items : list Item)
    (l : list Mem.document) :
  items <> [] ->
  NoDup (ID <$> items) ->
  Forall (fun i => Mem.has_id (ID i) l = false) items ->
  result Mem.collection (Handler.Insert ctx items) (Mem.holding l)
  = Returned (Err ctx)
  /\ Mem.docs (final Mem.collection (Handler.Insert ctx items) (Mem.holding l))
     = (l ++ ((fun i => Mem.encode (newMongoItem i)) <$> items))%list.
Proof.
  intros Hne Hnd Hfresh.
  assert (Mem.insert_many (newMongoItem <$> items) l
          = (None, (l ++ (Mem.encode <$> (newMongoItem <$> items)))%list))
    as Hins.
  { apply insert_many_fresh.
    - by rewrite <- list_fmap_compose.
    - apply Forall_fmap. exact Hfresh. }
  rewrite <- list_fmap_compose in Hins.
  destruct items as [|i items]; [done|].
  unfold_ops. cbn. cbn in Hins. rewrite Hins. cbn.
  destruct ctx; by cbn.
Qed.

(** The empty batch is refused before the store is reached: [Insert] of
    no item returns the error of the driver, or the error of a context
    that is done, and writes nothing. *)
Example Insert_nothing :
  result Mem.collection (Handler.Insert Live []) Sample.ten
  = Returned (Some (OtherError "must provide at least one element in input slice"))
  /\ final Mem.collection (Handler.Insert Live []) Sample.ten = Sample.ten.
Proof. vm_compute. split; reflexivity. Qed.

(** A duplicate key reported by a router, with code 16460 and the
    marker in the message, is mapped to a conflict like the codes of
    the server; the same code without the marker is not. *)
Example duplicate_key_errors :
  IsDuplicateKeyError
    (Some (ServerError 16460 "insert failed: E11000 duplicate key error")) = true
  /\ IsDuplicateKeyError (Some (ServerError 16460 "shard unavailable")) = false
  /\ IsDuplicateKeyError (Some (ServerError 11000 "duplicate")) = true
  /\ IsDuplicateKeyError (Some (WriteError 66)) = false
  /\ IsDuplicateKeyError (Some (OtherError "E11000")) = false.
Proof. vm_compute. split_and!; reflexivity. Qed.

(** An item whose identifier is already stored makes [Insert] report a
    conflict, and neither it nor the items behind it are written. *)
Theorem Insert_duplicate_conflict (item : Item) (items : list Item)
    (l : list Mem.document) :
  Mem.has_id (ID item) l = true ->
  result Mem.collection (Handler.Insert Live (item :: items)) (Mem.holding l)
  = Returned (Some ErrConflict)
  /\ final Mem.collection (Handler.Insert Live (item :: items)) (Mem.holding l)
     = Mem.holding l.
Proof.
  intros Hin. unfold_ops. cbn. change (mID (newMongoItem item)) with (ID item).
  rewrite Hin. by cbn.
Qed.

Lemma update_by_id_absent (id : value) (m : mongoItem) (l : list Mem.document) :
  Mem.has_id id l = false -> Mem.update_by_id id m l = None.
Proof.
  unfold Mem.has_id. rewrite bool_decide_eq_false.
  induction l as [|x l IH]; simpl; [done|].
  rewrite elem_of_cons. intros Hnot.
  destruct (decide (Mem.d_id x = id)) as [Heq|_]; [by destruct Hnot; left|].
  rewrite IH; [done | tauto].
Qed.

(** [Update] of an item whose identifier is not stored: the write
    matches no document, which the driver answers with a nil error, so
    [Update] makes no read, writes nothing and returns nil; not-found is
    not reported. *)
Theorem Update_absent_returns_nil (ctx : Context) (item original : Item)
    (l : list Mem.document) :
  Mem.has_id (ID original) l = false ->
  result Mem.collection (Handler.Update ctx item original) (Mem.holding l)
  = Returned None
  /\ final Mem.collection (Handler.Update ctx item original) (Mem.holding l)
     = Mem.holding l
  /\ calls Mem.collection (Handler.Update ctx item original) (Mem.holding l)
     = [Resolve ctx;
        UpdateByID ctx (ID original) (SetDoc (newMongoItem item))].
Proof.
  intros Habs. unfold_ops. cbn.
  rewrite decide_True by (right; congruence).
  rewrite update_by_id_absent by done. cbn.
  by rewrite decide_False.
Qed.



Lemma delete_one_at (f : bsonM)
    (l1 : list Mem.document) (x : Mem.document) (l2 : list Mem.document) :
  Forall (fun y => Mem.matches f y = false) l1 -> Mem.matches f x = true ->
  Mem.delete_one f (l1 ++ x :: l2)%list = Some (l1 ++ l2)%list.
Proof.
  intros Hl1 Hx. induction Hl1 as [|y l1 Hy _ IH]; simpl.
  - by rewrite Hx.
  - by rewrite Hy, IH.
Qed.

(** [Delete] removes the first document that matches identifier and
    version, and only that one, and returns no error; the context is
    not consulted on this path. *)
Theorem Delete_removes_match (ctx : Context) (item : Item)
    (l1 : list Mem.document) (x : Mem.document) (l2 : list Mem.document) :
  Forall (fun y => Mem.matches (selector (ID item) (ETag item)) y = false) l1 ->
  Mem.matches (selector (ID item) (ETag item)) x = true ->
  result Mem.collection (Handler.Delete ctx item) (Mem.holding (l1 ++ x :: l2)%list)
  = Returned None
  /\ Mem.docs (final Mem.collection (Handler.Delete ctx item)
                 (Mem.holding (l1 ++ x :: l2)%list)) = (l1 ++ l2)%list.
Proof.
  intros Hl1 Hx. unfold_ops. cbn.
  rewrite (delete_one_at _ _ _ _ Hl1 Hx). cbn.
  by rewrite decide_False.
Qed.

(** ** Version tags across a read *)

Lemma newItem_id (m : mongoItem) : ID (newItem m) = mID m.
Proof. unfold newItem. by destruct (decide _). Qed.

Lemma matches_selector (id : value) (etag : string) (x : Mem.document) :
  Mem.matches (selector id etag) x =
    Mem.holds (if String.prefix "p-" etag
               then CExists false else CEq (VStr etag))
      (VStr <$> Mem.d_etag x)
    && bool_decide (Mem.d_id x = id).
Proof.
  rewrite <- matches_by_id. unfold selector, Mem.matches.
  apply eq_true_iff_eq. rewrite andb_true_iff, !bool_decide_eq_true.
  destruct (String.prefix "p-" etag);
    (rewrite map_Forall_insert by done); reflexivity.
Qed.

Lemma prefix_synthetic (s : string) : String.prefix "p-" ("p-" ++ s) = true.
Proof. by destruct s. Qed.

(** The item [Find] makes of a stored document selects that document
    again in [Update] and [Delete] exactly when the version field of the
    document is absent, or holds a tag that is neither empty nor in the
    [p-] format: an absent field is read as a synthetic tag and matched
    by absence, while a stored empty tag is also read as a synthetic
    tag, which the field, being present, does not match. *)
Theorem read_item_selects_document (x : Mem.document) :
  let item := newItem (Mem.decode x) in
  Mem.matches (selector (ID item) (ETag item)) x =
    match Mem.d_etag x with
    | None => true
    | Some t => negb (bool_decide (t = EmptyString)) && negb (String.prefix "p-" t)
    end.
Proof.
  intros item. subst item.
  rewrite matches_selector, newItem_id, newItem_tag.
  change (mID (Mem.decode x)) with (Mem.d_id x).
  change (mETag (Mem.decode x)) with (default EmptyString (Mem.d_etag x)).
  rewrite bool_decide_eq_true_2 by done. rewrite andb_true_r.
  destruct (Mem.d_etag x) as [t|]; simpl default.
  - destruct (decide (t = EmptyString)) as [->|Ht].
    + rewrite prefix_synthetic. reflexivity.
    + rewrite (bool_decide_eq_false_2 (t = EmptyString)) by done.
      destruct (String.prefix "p-" t); [reflexivity|].
      simpl. by apply bool_decide_eq_true_2.
  - rewrite decide_True by done. rewrite prefix_synthetic. reflexivity.
Qed.

(** ** A window behind the last document *)

Lemma insert_sorted_length keys (x : Mem.document) (l : list Mem.document) :
  length (Mem.insert_sorted keys x l) = S (length l).
Proof.
  induction l as [|y l IH]; simpl; [done|].
  destruct (Mem.doc_cmp keys x y); simpl; by rewrite ?IH.
Qed.

Lemma sort_docs_length keys (l : list Mem.document) :
  length (Mem.sort_docs keys l) = length l.
Proof.
  induction l as [|x l IH]; simpl; [done|].
  by rewrite insert_sorted_length, IH.
Qed.

Lemma select_behind_end (f : bsonM) (o : FindOptions) (off : Z)
    (l : list Mem.document) :
  Skip o = Some off -> Mem.count f l <= off -> Mem.select f o l = [].
Proof.
  intros Hskip Hoff. unfold Mem.select, Mem.page. rewrite Hskip.
  rewrite drop_ge.
  - destruct (FLimit o) as [n|]; [destruct (decide (n = 0))|];
      rewrite ?take_nil; reflexivity.
  - rewrite sort_docs_length. unfold Mem.count, len in Hoff. lia.
Qed.

Lemma filter_id_in_nil (l : list Mem.document) :
  filter (fun x => Mem.d_id x ∈ @nil value) l = [].
Proof.
  induction l as [|x l IH]; [done|].
  rewrite filter_cons, decide_False by apply not_elem_of_nil. exact IH.
Qed.

Lemma filter_id_not_in_nil (l : list Mem.document) :
  filter (fun x => Mem.d_id x ∉ @nil value) l = l.
Proof.
  induction l as [|x l IH]; [done|].
  rewrite filter_cons, decide_True by apply not_elem_of_nil. by rewrite IH.
Qed.

(** With the window rendered as skip and limit, a [Clear] whose offset
    is not below the number of matching documents deletes nothing and
    returns 0. *)
Theorem Clear_window_behind_end (ctx : Context) (q : Query) (w : Window.t)
    (qry : bsonM) (l : list Mem.document) :
  QWindow q = Some w ->
  Native.translate (Predicate q) = inl qry ->
  Mem.count qry l <= Window.Offset w ->
  result Mem.collection (@Handler.Clear Native.translator ctx q) (Mem.holding l)
  = Returned (0, Err ctx)
  /\ Mem.docs (final Mem.collection (@Handler.Clear Native.translator ctx q)
                 (Mem.holding l)) = l.
Proof.
  intros Hw Hq Hoff.
  destruct (@Clear_window_mem Native.translator ctx q w qry l Hw Hq) as [Hr Hd].
  rewrite Hr, Hd.
  rewrite (select_behind_end qry _ (Window.Offset w)); [|reflexivity|done].
  simpl. by rewrite filter_id_in_nil, filter_id_not_in_nil.
Qed.

(** ** Insert, then Find *)

Lemma filter_by_id_absent (id : value) (l : list Mem.document) :
  Mem.has_id id l = false ->
  filter (fun x => Mem.matches (by_id id) x = true) l = [].
Proof.
  unfold Mem.has_id. rewrite bool_decide_eq_false.
  induction l as [|x l IH]; [done|]. simpl.
  rewrite elem_of_cons. intros Hnot.
  rewrite filter_cons, matches_by_id.
  rewrite decide_False; [apply IH; tauto|].
  rewrite bool_decide_eq_true. intros Heq. apply Hnot. by left.
Qed.

Lemma newItem_decode_encode (m : mongoItem) :
  newItem (Mem.decode (Mem.encode m)) = newItem m.
Proof.
  unfold newItem, Mem.decode, Mem.encode, entries. simpl.
  destruct (mPayload m) as [p|]; simpl.
  - by destruct (decide (p = ∅)) as [->|].
  - by destruct (decide (∅ = ∅)).
Qed.

Lemma select_by_id_single (o : FindOptions) (id : value)
    (l : list Mem.document) (x : Mem.document) :
  Sort o = [] -> Skip o = None -> FLimit o = None -> Projection o = None ->
  Mem.has_id id l = false -> Mem.d_id x = id ->
  Mem.select (by_id id) o (l ++ [x])%list = [x].
Proof.
  intros Hsort Hskip Hlim Hproj Hfresh Hx.
  unfold Mem.select, Mem.page. rewrite Hsort, Hskip, Hlim, Hproj.
  rewrite filter_app, (filter_by_id_absent _ _ Hfresh). simpl.
  rewrite filter_cons, filter_nil, matches_by_id.
  rewrite decide_True by (by apply bool_decide_eq_true_2).
  reflexivity.
Qed.

#[local] Arguments Mem.select : simpl never.

(** An item inserted into a collection that holds no document with its
    identifier is found again by that identifier: [Find] returns it
    alone, as the translation to the stored form and back gives it,
    with total 1 and limit -1. *)
Theorem Insert_then_Find (i : Item) (l : list Mem.document) :
  Mem.has_id (ID i) l = false ->
  result Mem.collection
    (@Handler.Find Native.translator Live
       (mkQuery [Equal "_id" (ID i)] [] None))
    (final Mem.collection (Handler.Insert Live [i]) (Mem.holding l))
  = Returned (Some (ItemList.mk 1 (-1) [newItem (newMongoItem i)]), None).
Proof.
  intros Hfresh.
  assert (final Mem.collection (Handler.Insert Live [i]) (Mem.holding l)
          = Mem.holding (l ++ [Mem.encode (newMongoItem i)])%list) as ->.
  { unfold_ops. cbn. change (mID (newMongoItem i)) with (ID i).
    by rewrite Hfresh. }
  unfold_ops. cbn. rewrite insert_empty. fold (by_id (ID i)).
  rewrite select_by_id_single by done. cbn.
  by rewrite newItem_decode_encode.
Qed.

(** ** The ObjectID field *)

Lemma DecodeString_pair (hi lo : ascii) (rest : string) :
  ObjectID.DecodeString (String hi (String lo rest)) =
    match ObjectID.hex_value hi, ObjectID.hex_value lo,
          ObjectID.DecodeString rest with
    | Some h, Some l, Some bytes =>
        match Byte.of_N (h * 16 + l) with
        | Some b => Some (b :: bytes)
        | None => None
        end
    | _, _, _ => None
    end.
Proof. reflexivity. Qed.

Lemma hex_byte (b : byte) :
  ObjectID.hex_value (hex_digit (N.shiftr (Byte.to_N b) 4))
  = Some (N.shiftr (Byte.to_N b) 4)
  /\ ObjectID.hex_value (hex_digit (N.land (Byte.to_N b) 15))
     = Some (N.land (Byte.to_N b) 15)
  /\ Byte.of_N (N.shiftr (Byte.to_N b) 4 * 16 + N.land (Byte.to_N b) 15)
     = Some b.
Proof. destruct b; vm_compute; repeat split. Qed.

Lemma DecodeString_Hex (raw : list byte) :
  ObjectID.DecodeString (Hex raw) = Some raw.
Proof.
  induction raw as [|b raw IH]; [reflexivity|].
  destruct (hex_byte b) as (Hhi & Hlo & Hb).
  cbn [Hex]. rewrite DecodeString_pair, Hhi, Hlo, IH, Hb. reflexivity.
Qed.

Lemma Hex_length (raw : list byte) :
  String.length (Hex raw) = (2 * length raw)%nat.
Proof. induction raw as [|b raw IH]; simpl; [reflexivity | rewrite IH; lia]. Qed.

(** The hexadecimal form of a 12-byte identifier is validated back into
    that identifier. *)
Theorem Validate_Hex (raw : list byte) :
  length raw = 12%nat ->
  ObjectID.Validate (VStr (Hex raw)) = inl (VObjectID raw).
Proof.
  intros Hlen. unfold ObjectID.Validate, ObjectID.ObjectIDFromHex.
  rewrite Hex_length, Hlen, DecodeString_Hex. reflexivity.
Qed.

Lemma hex_value_char (c : ascii) :
  if ObjectID.hex_char c
  then exists n, ObjectID.hex_value c = Some n /\ (n < 16)%N
  else ObjectID.hex_value c = None.
Proof.
  unfold ObjectID.hex_char, ObjectID.hex_value.
  set (n := N_of_ascii c).
  destruct (48 <=? n)%N eqn:H1, (n <=? 57)%N eqn:H2,
           (97 <=? n)%N eqn:H3, (n <=? 102)%N eqn:H4,
           (65 <=? n)%N eqn:H5, (n <=? 70)%N eqn:H6; simpl;
    try reflexivity; eexists; (split; [reflexivity|]);
    apply N.leb_le in H1 || apply N.leb_le in H3 || apply N.leb_le in H5;
    try apply N.leb_le in H2; try apply N.leb_le in H4;
    try apply N.leb_le in H6; lia.
Qed.

Lemma DecodeString_spec (n : nat) (s : string) :
  String.length s = (2 * n)%nat ->
  if forallb ObjectID.hex_char (list_ascii_of_string s)
  then exists raw, ObjectID.DecodeString s = Some raw /\ length raw = n
  else ObjectID.DecodeString s = None.
Proof.
  revert s. induction n as [|n IH]; intros s Hlen.
  - destruct s; [|discriminate]. simpl. by exists [].
  - destruct s as [|hi [|lo rest]]; simpl in Hlen; try lia.
    rewrite DecodeString_pair. cbn [list_ascii_of_string forallb].
    pose proof (hex_value_char hi) as Hhi.
    pose proof (hex_value_char lo) as Hlo.
    specialize (IH rest ltac:(lia)).
    destruct (ObjectID.hex_char hi); [|by rewrite Hhi].
    destruct Hhi as (h & -> & Hh).
    destruct (ObjectID.hex_char lo); [|by rewrite Hlo].
    destruct Hlo as (l & -> & Hl). simpl.
    destruct (forallb ObjectID.hex_char (list_ascii_of_string rest)).
    + destruct IH as (raw & -> & Hraw).
      destruct (Byte.of_N (h * 16 + l)) as [b|] eqn:Hb.
      * exists (b :: raw). simpl. by rewrite Hraw.
      * apply Byte.of_N_None_iff in Hb. lia.
    + by rewrite IH.
Qed.

(** [Validate] accepts a string exactly when it matches the pattern of
    the JSON schema, 24 hexadecimal digits in either case; the
    identifier it returns has 12 bytes and its hexadecimal form is
    accepted again as the same identifier. Any other string is refused
    with the one error of the validator. *)
Theorem Validate_string (s : string) :
  match ObjectID.Validate (VStr s) with
  | inl v =>
      ObjectID.matches_pattern s = true
      /\ exists raw, v = VObjectID raw /\ length raw = 12%nat
           /\ ObjectID.Validate (VStr (Hex raw)) = inl v
  | inr e =>
      ObjectID.matches_pattern s = false
      /\ e = OtherError "invalid object id"
  end.
Proof.
  unfold ObjectID.Validate, ObjectID.ObjectIDFromHex, ObjectID.matches_pattern.
  destruct (Nat.eqb (String.length s) 24) eqn:Hlen; [|done].
  apply Nat.eqb_eq in Hlen.
  pose proof (DecodeString_spec 12 s Hlen) as Hd.
  destruct (forallb ObjectID.hex_char (list_ascii_of_string s)).
  - destruct Hd as (raw & -> & Hraw). split; [done|].
    exists raw. split; [done|]. split; [done|].
    rewrite Hex_length, Hraw, DecodeString_Hex. reflexivity.
  - rewrite Hd. done.
Qed.

(** What [Validate] accepts is an [ObjectID], and validating it again
    gives the same value. *)
Theorem Validate_idempotent (v r : value) :
  ObjectID.Validate v = inl r ->
  (exists raw, r = VObjectID raw) /\ ObjectID.Validate r = inl r.
Proof.
  destruct v as [| | |s|raw]; simpl; try discriminate.
  - destruct (ObjectID.ObjectIDFromHex s) as [raw|]; [|discriminate].
    intros [= <-]. split; [by eexists | done].
  - intros [= <-]. split; [by eexists | done].
Qed.

(** The [OnInit] hook followed by the validator: a nil value becomes the
    new identifier, and any other value is validated as it was given. *)
Theorem Validate_NewObjectID (fresh : list byte) (ctx : Context) (v : value) :
  length fresh = 12%nat ->
  ObjectID.Validate (ObjectID.NewObjectID fresh ctx v) =
    match v with
    | VNil => inl (VObjectID fresh)
    | other => ObjectID.Validate other
    end.
Proof.
  intros Hlen. destruct v; try reflexivity.
  simpl ObjectID.NewObjectID. unfold ObjectID.Validate, ObjectID.ObjectIDFromHex.
  by rewrite Hex_length, Hlen, DecodeString_Hex.
Qed.

(** ** Runs on the sample data *)

Lemma resolve_failure_stops_witness :
  run (Sample.scripted Scenario.no_handle)
    (Sample.Count Live (Sample.by_rank None)) tt
  = (Returned (-1, Some (OtherError "no session")), tt,
     [mkEntry (Resolve Live) (Some (OtherError "no session"))]).
Proof.
  destruct (@resolve_failure_stops Native.translator _
              (Sample.scripted Scenario.no_handle) Live
              (OtherError "no session") tt tt eq_refl) as (_ & _ & _ & Hq).
  destruct (Hq (Sample.by_rank None) {[ "kind" := CEq (VStr "a") ]})
    as (_ & Hcount & _); [vm_compute; reflexivity|].
  exact Hcount.
Defined.

Lemma translation_failure_stops_witness :
  run Mem.collection (Sample.Clear Live Scenario.refused) Sample.ten
  = (Returned (0, Some (OtherError "regex")), Sample.ten, []).
Proof.
  destruct (@translation_failure_stops Native.translator _ Mem.collection
              Live Scenario.refused (OtherError "regex") Sample.ten eq_refl)
    as (Hclear & _).
  exact Hclear.
Defined.

Lemma Insert_outcome_witness :
  result Mem.collection (Handler.Insert Live [Sample.item 3 "v1"]) Sample.ten
  = Returned (Some ErrConflict).
Proof.
  destruct (Insert_outcome Mem.collection Live [Sample.item 3 "v1"]
              Sample.ten Sample.ten Sample.ten (Some (WriteError 11000))
              eq_refl) as (_ & _ & Hr & _); [vm_compute; reflexivity|].
  exact Hr.
Defined.

Lemma NewHandler_reaches_store_witness :
  calls (NewHandler (Sample.scripted Scenario.no_handle))
    (Sample.Count Cancelled (Sample.by_rank None)) tt
  = [Resolve Cancelled; CountDocuments Cancelled {[ "kind" := CEq (VStr "a") ]}].
Proof.
  destruct (NewHandler_reaches_store (Sample.scripted Scenario.no_handle)
              Cancelled tt) as (_ & _ & _ & Hcount).
  apply (Hcount Native.translator). vm_compute. reflexivity.
Defined.

Lemma guard_disambiguation_witness :
  result (Sample.scripted Scenario.reports_no_match)
    (Handler.Delete Cancelled (Sample.item 30 "v1")) tt
  = Returned (Some ErrNotFound)
  /\ result (Sample.scripted Scenario.reports_stale)
       (Handler.Update Live (Sample.item 3 "v2") (Sample.item 3 "v0")) tt
     = Returned (Some ErrConflict).
Proof.
  split.
  - destruct (guard_disambiguation (Sample.scripted Scenario.reports_no_match)
                Cancelled tt tt tt tt (Some ErrNoDocuments)) as [_ Hdelete].
    destruct (Hdelete (Sample.item 30 "v1")) as (Hr & _); [reflexivity ..|].
    exact Hr.
  - destruct (guard_disambiguation (Sample.scripted Scenario.reports_stale)
                Live tt tt tt tt None) as [Hupdate _].
    destruct (Hupdate (Sample.item 3 "v2") (Sample.item 3 "v0")) as (Hr & _);
      [reflexivity ..|].
    exact Hr.
Defined.

Lemma Clear_without_window_witness :
  result Mem.collection (Sample.Clear Live (Sample.by_rank None)) Sample.ten
  = Returned (10, None).
Proof.
  destruct (@Clear_without_window Native.translator _ Mem.collection Live
              (Sample.by_rank None) {[ "kind" := CEq (VStr "a") ]}
              Sample.ten Sample.ten (Mem.holding []) (Some 10) None
              eq_refl) as (_ & _ & Hr); [vm_compute; reflexivity ..|].
  exact Hr.
Defined.

Lemma Clear_window_failure_deletes_nothing_witness :
  calls (Sample.scripted Scenario.ids_fail)
    (Sample.Clear Live (Sample.by_rank (Some (Window.mk 2 3)))) tt
  = [Resolve Live;
     Find Live {[ "kind" := CEq (VStr "a") ]}
       (SetProjection
          (Native.window_of (Native.sort_of (Sample.by_rank (Some (Window.mk 2 3))))
             (Some (Window.mk 2 3))) {[ "_id" := 1 ]});
     SelectIDs Live 0%nat].
Proof.
  destruct (@Clear_window_failure_deletes_nothing Native.translator _
              (Sample.scripted Scenario.ids_fail) Live
              (Sample.by_rank (Some (Window.mk 2 3))) (Window.mk 2 3)
              {[ "kind" := CEq (VStr "a") ]} tt tt tt
              (OtherError "cursor closed") eq_refl)
    as [_ Hids]; [vm_compute; reflexivity ..|].
  destruct (Hids 0%nat [] tt) as [_ Hcalls]; [vm_compute; reflexivity ..|].
  exact Hcalls.
Defined.

Lemma Find_nil_cursor_panics_witness :
  result Mem.collection (Sample.Find Live (Sample.by_rank None)) Sample.unreachable
  = Panicked.
Proof.
  apply (@Find_nil_cursor_panics Native.translator _ Mem.collection Live
           (Sample.by_rank None) {[ "kind" := CEq (VStr "a") ]}
           Sample.unreachable Sample.unreachable Sample.unreachable
           (Some (OtherError "connection refused"))).
  - intros w Hw. discriminate.
  - vm_compute. reflexivity.
  - vm_compute. reflexivity.
  - vm_compute. reflexivity.
Defined.

Lemma Find_items_well_formed_witness :
  Forall (fun it => ETag it ≠ EmptyString
                    /\ exists p, Payload it = Some p /\ p !! "id" = Some (ID it))
    (ItemList.Items Sample.last_page).
Proof.
  apply (@Find_items_well_formed Native.translator _ Mem.collection Live
           (Sample.by_rank (Some (Window.mk 10 5))) Sample.twelve
           Sample.last_page None).
  vm_compute. reflexivity.
Defined.

Lemma Find_read_path_witness :
  calls Mem.collection
    (Sample.Find Live (Sample.by_rank (Some (Window.mk 10 5)))) Sample.twelve
  = [Resolve Live;
     Find Live {[ "kind" := CEq (VStr "a") ]}
       (Native.window_of (Native.sort_of (Sample.by_rank (Some (Window.mk 10 5))))
          (Some (Window.mk 10 5)));
     CursorAll Live 0%nat; CursorClose Live 0%nat].
Proof.
  edestruct (@Find_read_path Native.translator _ Mem.collection Live
               (Sample.by_rank (Some (Window.mk 10 5)))
               {[ "kind" := CEq (VStr "a") ]} Sample.twelve Sample.twelve)
    as [_ Hcalls].
  - intros w [= <-]. discriminate.
  - vm_compute. reflexivity.
  - reflexivity.
  - reflexivity.
  - reflexivity.
  - reflexivity.
  - exact Hcalls.
Defined.

Lemma Find_total_edges_witness :
  ItemList.Total Sample.last_page = -1
  \/ len (ItemList.Items Sample.last_page) <= ItemList.Total Sample.last_page.
Proof.
  assert (result Mem.collection
            (Sample.Find Live (Sample.by_rank (Some (Window.mk 10 5))))
            Sample.twelve = Returned (Some Sample.last_page, None)) as Hr
    by (vm_compute; reflexivity).
  destruct (@Find_total_edges Native.translator _ Mem.collection Live _ _ _ _ Hr)
    as [_ Hbound].
  - intros w [= <-]. discriminate.
  - apply Hbound. intros w [= <-].
    replace (len (ItemList.Items Sample.last_page)) with 2
      by (vm_compute; reflexivity).
    unfold in_int, int_min, int_max. simpl. lia.
Defined.

Lemma Insert_stores_batch_witness :
  result Mem.collection
    (Handler.Insert Live [Sample.item 30 "v1"; Sample.item 31 "v1"])
    Sample.ten = Returned None
  /\ length (Mem.docs (final Mem.collection
               (Handler.Insert Live [Sample.item 30 "v1"; Sample.item 31 "v1"])
               Sample.ten)) = 12%nat.
Proof.
  destruct (Insert_stores_batch Live
              [Sample.item 30 "v1"; Sample.item 31 "v1"] (Mem.docs Sample.ten))
    as [Hr Hd].
  - discriminate.
  - compute_done.
  - repeat constructor.
  - change Sample.ten with (Mem.holding (Mem.docs Sample.ten)).
    split; [exact Hr|]. rewrite Hd. reflexivity.
Defined.

Lemma Insert_duplicate_conflict_witness :
  final Mem.collection
    (Handler.Insert Live [Sample.item 3 "v9"; Sample.item 30 "v1"]) Sample.ten
  = Sample.ten.
Proof.
  destruct (Insert_duplicate_conflict (Sample.item 3 "v9") [Sample.item 30 "v1"]
              (Mem.docs Sample.ten)) as [_ Hs]; [vm_compute; reflexivity|].
  exact Hs.
Defined.

Lemma Update_absent_returns_nil_witness :
  result Mem.collection
    (Handler.Update Live (Sample.item 30 "v2") (Sample.item 30 "v1"))
    Sample.ten = Returned None
  /\ final Mem.collection
       (Handler.Update Live (Sample.item 30 "v2") (Sample.item 30 "v1"))
       Sample.ten = Sample.ten.
Proof.
  destruct (Update_absent_returns_nil Live (Sample.item 30 "v2")
              (Sample.item 30 "v1") (Mem.docs Sample.ten)) as (Hr & Hs & _);
    [vm_compute; reflexivity|].
  split; [exact Hr | exact Hs].
Defined.


Lemma Delete_removes_match_witness :
  Mem.docs (final Mem.collection (Handler.Delete Live (Sample.item 2 "v1"))
              (Mem.holding [Sample.doc 1; Sample.doc 2; Sample.doc 3]))
  = [Sample.doc 1; Sample.doc 3].
Proof.
  destruct (Delete_removes_match Live (Sample.item 2 "v1")
              [Sample.doc 1] (Sample.doc 2) [Sample.doc 3]) as [_ Hd].
  - repeat constructor.
  - vm_compute. reflexivity.
  - exact Hd.
Defined.

Lemma Delete_unmatched_returns_nil_witness :
  result Mem.collection (Handler.Delete Live (Sample.item 2 "v0"))
    (Mem.holding [Sample.doc 1; Sample.doc 2; Sample.doc 3])
  = Returned None
  /\ final Mem.collection (Handler.Delete Live (Sample.item 2 "v0"))
       (Mem.holding [Sample.doc 1; Sample.doc 2; Sample.doc 3])
     = Mem.holding [Sample.doc 1; Sample.doc 2; Sample.doc 3].
Proof.
  destruct (Delete_unmatched_returns_nil Live (Sample.item 2 "v0")
              [Sample.doc 1; Sample.doc 2; Sample.doc 3]) as (Hr & Hs & _).
  - repeat constructor.
  - split; [exact Hr | exact Hs].
Defined.

Lemma Clear_window_behind_end_witness :
  final Mem.collection
    (Sample.Clear Live (Sample.by_rank (Some (Window.mk 10 3)))) Sample.ten
  = Mem.with_docs
      (final Mem.collection
         (Sample.Clear Live (Sample.by_rank (Some (Window.mk 10 3)))) Sample.ten)
      (Mem.docs Sample.ten).
Proof.
  destruct (Clear_window_behind_end Live (Sample.by_rank (Some (Window.mk 10 3)))
              (Window.mk 10 3) {[ "kind" := CEq (VStr "a") ]}
              (Mem.docs Sample.ten) eq_refl) as [_ Hd].
  - vm_compute. reflexivity.
  - vm_compute. discriminate.
  - unfold Sample.Clear. change Sample.ten with (Mem.holding (Mem.docs Sample.ten)).
    rewrite <- Hd at 3. by destruct (final _ _ _).
Defined.

Lemma Insert_then_Find_witness :
  result Mem.collection
    (Sample.Find Live (mkQuery [Equal "_id" (VInt 30)] [] None))
    (final Mem.collection (Handler.Insert Live [Sample.item 30 "v1"]) Sample.ten)
  = Returned (Some (ItemList.mk 1 (-1) [Sample.item 30 "v1"]), None).
Proof.
  rewrite <- (roundtrip_identity (Sample.item 30 "v1")
                {[ "id" := VInt 30; "kind" := VStr "b" ]})
    by (reflexivity || discriminate).
  apply (Insert_then_Find (Sample.item 30 "v1") (Mem.docs Sample.ten)).
  vm_compute. reflexivity.
Defined.

Lemma Validate_Hex_witness :
  ObjectID.Validate (VStr "5f00abff0123456789cdef10") = inl (VObjectID Scenario.oid).
Proof. apply (Validate_Hex Scenario.oid). reflexivity. Defined.

Lemma Validate_idempotent_witness :
  ObjectID.Validate (VObjectID Scenario.oid) = inl (VObjectID Scenario.oid).
Proof.
  destruct (Validate_idempotent (VStr "5F00ABFF0123456789CDEF10")
              (VObjectID Scenario.oid)) as [_ Hagain].
  - vm_compute. reflexivity.
  - exact Hagain.
Defined.

Lemma Validate_NewObjectID_witness :
  ObjectID.Validate (ObjectID.NewObjectID Scenario.oid Live VNil)
  = inl (VObjectID Scenario.oid).
Proof. apply (Validate_NewObjectID Scenario.oid Live VNil). reflexivity. Defined.
